(** * Media/text pipeline: gateway, media processor and speech synthesizer

    A shallow embedding of the three FastAPI services

      - [src/api-gateway/main.py]      (module [Gateway]),
      - [src/media-processor/main.py]  (module [Processor]),
      - [src/text-to-speech/main.py]   (module [Synth]),

    together with the few Python string and path primitives they use
    (module [Py]).  Handlers are functions from a request, the outcomes of
    the external calls made while serving it, and the temp directory, to a
    response, the resulting temp directory and the list of external effects
    in the order they were issued. *)

From Stdlib Require Import ZArith Ascii String List Bool Lia.
From Stdlib.Strings Require Import Byte.
From stdpp Require Import base option strings gmap.

Import ListNotations.

#[local] Arguments String.append !_ _ / : simpl nomatch.

(** ** Python primitives *)

Module Py.

(** Characters are the code points below 256; [str] is [string]. *)

Definition in_range (lo hi n : nat) : bool :=
  Nat.leb lo n && Nat.leb n hi.

(** [str.lower] on one code point: A-Z and the Latin-1 capitals
    U+00C0..U+00DE (without the multiplication sign U+00D7) move up by 32. *)
Definition lower_char (c : ascii) : ascii :=
  let n := nat_of_ascii c in
  if in_range 65 90 n then ascii_of_nat (n + 32)
  else if in_range 192 222 n && negb (Nat.eqb n 215) then ascii_of_nat (n + 32)
  else c.

Fixpoint lower (s : string) : string :=
  match s with
  | EmptyString => EmptyString
  | String c s' => String (lower_char c) (lower s')
  end.

(** [str.isspace] on one code point. *)
Definition isspace (c : ascii) : bool :=
  let n := nat_of_ascii c in
  in_range 9 13 n || in_range 28 32 n || Nat.eqb n 133 || Nat.eqb n 160.

Fixpoint all_space (s : string) : bool :=
  match s with
  | EmptyString => true
  | String c s' => isspace c && all_space s'
  end.

Fixpoint lstrip (s : string) : string :=
  match s with
  | EmptyString => EmptyString
  | String c s' => if isspace c then lstrip s' else s
  end.

Definition is_empty (s : string) : bool :=
  match s with EmptyString => true | _ => false end.

Fixpoint rstrip (s : string) : string :=
  match s with
  | EmptyString => EmptyString
  | String c s' =>
      let r := rstrip s' in
      if isspace c && is_empty r then EmptyString else String c r
  end.

(** [s.strip()] *)
Definition strip (s : string) : string := rstrip (lstrip s).

(** [c in s] for a one-character [c]. *)
Fixpoint contains (c : ascii) (s : string) : bool :=
  match s with
  | EmptyString => false
  | String d s' => Ascii.eqb c d || contains c s'
  end.

(** [s.split(sep)] for a one-character separator; never the empty list. *)
Fixpoint split (sep : ascii) (s : string) : list string :=
  match s with
  | EmptyString => [EmptyString]
  | String c s' =>
      if Ascii.eqb c sep then EmptyString :: split sep s'
      else match split sep s' with
           | h :: t => String c h :: t
           | [] => [String c EmptyString]
           end
  end.

(** [l[-1]] on a list of strings that is known not to be empty. *)
Definition last_item (l : list string) : string := List.last l EmptyString.

(** [s.startswith(p)] *)
Fixpoint startswith (s p : string) {struct p} : bool :=
  match p with
  | EmptyString => true
  | String a p' =>
      match s with
      | EmptyString => false
      | String b s' => Ascii.eqb a b && startswith s' p'
      end
  end.

(** [s.endswith(suf)] *)
Fixpoint endswith (s suf : string) : bool :=
  String.eqb s suf ||
  match s with
  | EmptyString => false
  | String _ s' => endswith s' suf
  end.

(** [s.replace(old, new)] for a non-empty [old]: the occurrences of [old]
    are found from the left and do not overlap; [skip] counts the
    characters of a match that are still to be passed over. *)
Fixpoint replace_from (old new : string) (skip : nat) (s : string) : string :=
  match s with
  | EmptyString => EmptyString
  | String c s' =>
      match skip with
      | S k => replace_from old new k s'
      | O =>
          if startswith s old
          then new +:+ replace_from old new (String.length old - 1) s'
          else String c (replace_from old new 0 s')
      end
  end.

Definition replace (s old new : string) : string := replace_from old new 0 s.

(** [s[:n]] *)
Definition take (n : nat) (s : string) : string := String.substring 0 n s.

(** [x or d] on an optional string: [None] and the empty string are falsy. *)
Definition truthy (o : option string) : bool :=
  match o with
  | Some s => negb (is_empty s)
  | None => false
  end.

Definition or_else (o : option string) (d : string) : string :=
  match o with
  | Some s => if is_empty s then d else s
  | None => d
  end.

(** [posixpath.join(a, b)] *)
Definition path_join (a b : string) : string :=
  if startswith b "/" then b
  else if is_empty a || endswith a "/" then a +:+ b
  else a +:+ "/" +:+ b.

(** [sub in s] for strings: [sub] occurs somewhere in [s]. *)
Fixpoint has_substring (s sub : string) : bool :=
  startswith s sub ||
  match s with
  | EmptyString => false
  | String _ s' => has_substring s' sub
  end.

(** [s[n:]] *)
Definition drop (n : nat) (s : string) : string :=
  String.substring n (String.length s - n) s.

(** [len(content)] of a [bytes] value. *)
Definition len (content : list byte) : Z := Z.of_nat (List.length content).

(** A [bytes] value of [n] zero bytes. *)
Definition zeros (n : Z) : list byte := List.repeat x00 (Z.to_nat n).

End Py.

(** ** Shared vocabulary of the three services *)

(** What Python code can raise.  The detail of an [HTTPException] is either
    a literal or the f-string [prefix + str(e)] built by an [except] clause,
    kept structured rather than rendered. *)
Inductive exn : Type :=
| HTTPException (status_code : Z) (detail : message)
| Raised (origin : string)
with message : Type :=
| Lit (s : string)
| Fmt (prefix : string) (cause : exn).

Definition HTTP_400_BAD_REQUEST : Z := 400.
Definition HTTP_404_NOT_FOUND : Z := 404.
Definition HTTP_413_REQUEST_ENTITY_TOO_LARGE : Z := 413.
Definition HTTP_500_INTERNAL_SERVER_ERROR : Z := 500.

(** The status line FastAPI sends for what leaves a handler: 200 for a
    returned value, the exception's own code for an [HTTPException], 500 for
    anything else. *)
Definition status_of {A} (r : exn + A) : Z :=
  match r with
  | inr _ => 200
  | inl (HTTPException code _) => code
  | inl (Raised _) => 500
  end.

Definition TEMP_FILES_DIR : string := "/app/temp_files".

(** [150 * 1024 * 1024], the bound both upload handlers compare against. *)
Definition MAX_UPLOAD : Z := 150 * 1024 * 1024.

(** The temp directory: regular files by path. *)
Abbreviation files := (gmap string (list byte)).

(** Outcome of [open(path, "wb")] followed by [write]: everything written,
    or an exception that leaves nothing or a partial file behind. *)
Inductive write_outcome : Type :=
| Written
| WriteFailed (left_behind : option (list byte)).

Definition apply_write (d : files) (p : string) (content : list byte)
    (w : write_outcome) : files :=
  match w with
  | Written => <[p := content]> d
  | WriteFailed (Some part) => <[p := part]> d
  | WriteFailed None => d
  end.

(** ** Handlers as state-and-exception computations *)

Section Monad.
Context {S : Type}.

Definition M (A : Type) : Type := S -> (exn + A) * S.

Definition ret {A} (a : A) : M A := fun s => (inr a, s).

Definition bind {A B} (c : M A) (k : A -> M B) : M B :=
  fun s =>
    match c s with
    | (inr a, s') => k a s'
    | (inl e, s') => (inl e, s')
    end.

Definition raise {A} (e : exn) : M A := fun s => (inl e, s).

Definition get : M S := fun s => (inr s, s).

Definition modify (f : S -> S) : M unit := fun s => (inr tt, f s).

(** [if b: c] *)
Definition when (b : bool) (c : M unit) : M unit :=
  if b then c else ret tt.

(** [try: c  except Exception as e: h e] *)
Definition try_except {A} (c : M A) (h : exn -> M A) : M A :=
  fun s =>
    match c s with
    | (inl e, s') => h e s'
    | r => r
    end.

(** [try: c  finally: f] *)
Definition try_finally {A} (c : M A) (f : M unit) : M A :=
  fun s =>
    match c s with
    | (r, s') =>
        match f s' with
        | (inl e, s'') => (inl e, s'')
        | (inr _, s'') => (r, s'')
        end
    end.

End Monad.

Arguments M : clear implicits.

Notation "x <- c ;; k" := (bind c (fun x => k))
  (at level 100, c at next level, right associativity).
Notation "c ;;; k" := (bind c (fun _ => k))
  (at level 100, right associativity).

Ltac run_m :=
  cbv beta iota delta [bind ret raise get modify when try_except try_finally].

(** ** The gateway ([src/api-gateway/main.py]) *)

Module Gateway.

Record UploadFile : Type := {
  upload_filename : option string;
  upload_content : list byte;
  upload_content_type : option string
}.

Record TextToAudioRequest : Type := {
  text : string;
  voice_type : string;
  filename : option string
}.

Record MediaToTextResponse : Type := {
  m_id : string;
  m_filename : string;
  m_file_upload : string;
  m_status : string;
  m_created_at : string
}.

Record TextToAudioResponse : Type := {
  t_id : string;
  t_filename : string;
  t_audio_url : string;
  t_voice_type : string;
  t_status : string
}.

(** What [httpx] hands back from a downstream service; [json_ok] tells
    whether [response.json()] parses. *)
Record downstream : Type := {
  status_code : Z;
  json_ok : bool
}.

(** The calls that leave the process, in the order they are issued. *)
Inductive event : Type :=
| SaveTemp (path : string) (content : list byte)
| PostProcessMedia (job_id fname : string) (content : list byte)
| PostGenerateSpeech (job_id txt voice fname : string).

(** Everything the handlers obtain from outside: the UUID and the clock,
    the random letter indices, and the outcome of each external call.  A
    post that yields [None] stands for any exception raised inside the
    client block: reopening the temp file, a refused connection, the
    300-second timeout. *)
Record env : Type := {
  uuid4 : string;
  now : string;
  random_index : nat -> nat;
  write_temp : string -> list byte -> write_outcome;
  post_process_media : string -> string -> list byte -> option downstream;
  post_generate_speech : string -> string -> string -> string -> option downstream
}.

Record state : Type := {
  fs : files;
  trace : list event
}.

Definition emit (e : event) : M state unit :=
  modify (fun s => {| fs := fs s; trace := trace s ++ [e] |}).

Definition set_fs (f : files -> files) : M state unit :=
  modify (fun s => {| fs := f (fs s); trace := trace s |}).

(** [async with aiofiles.open(path, "wb") as f: await f.write(content)] *)
Definition save_temp (E : env) (path : string) (content : list byte)
    : M state unit :=
  emit (SaveTemp path content) ;;;
  set_fs (fun d => apply_write d path content (write_temp E path content)) ;;;
  match write_temp E path content with
  | Written => ret tt
  | WriteFailed _ => raise (Raised "aiofiles.open/write")
  end.

(** [os.path.exists(path)] *)
Definition path_exists (path : string) : M state bool :=
  s <- get ;;
  ret (match fs s !! path with Some _ => true | None => false end).

(** [os.remove(path)] on a path that exists *)
Definition remove (path : string) : M state unit :=
  set_fs (delete path).

(** [response.json()] *)
Definition json (r : downstream) : M state unit :=
  if json_ok r then ret tt else raise (Raised "response.json").

Definition media_to_text (E : env) (file : UploadFile)
    : M state MediaToTextResponse :=
  try_except
    (let job_id := uuid4 E in
     let content := upload_content file in
     let file_size := Py.len content in
     when (file_size >? 150 * 1024 * 1024)%Z
       (raise (HTTPException HTTP_413_REQUEST_ENTITY_TOO_LARGE
                 (Lit "File size exceeds 150MB limit"))) ;;;
     let filename :=
       Py.or_else (upload_filename file)
                  ("audio_" +:+ Py.take 8 job_id +:+ ".mp3") in
     let temp_file_path :=
       Py.path_join TEMP_FILES_DIR (job_id +:+ "_" +:+ filename) in
     save_temp E temp_file_path content ;;;
     response <-
       (emit (PostProcessMedia job_id filename content) ;;;
        match post_process_media E job_id filename content with
        | Some r => ret r
        | None => raise (Raised "httpx.AsyncClient.post")
        end) ;;
     (there <- path_exists temp_file_path ;;
      when there (remove temp_file_path)) ;;;
     when (negb (status_code response =? 200)%Z)
       (raise (HTTPException (status_code response)
                 (Lit "Media processing failed"))) ;;;
     json response ;;;
     ret {| m_id := job_id;
            m_filename := filename;
            m_file_upload := temp_file_path;
            m_status := "completed";
            m_created_at := now E |})
    (fun e =>
       raise (HTTPException HTTP_500_INTERNAL_SERVER_ERROR
                (Fmt "Internal server error: " e))).

Definition ascii_lowercase : string := "abcdefghijklmnopqrstuvwxyz".

(** [random.choices(population, k=k)]: each draw indexes the population. *)
Fixpoint random_choices (rnd : nat -> nat) (population : string) (k : nat)
    : list ascii :=
  match k with
  | O => []
  | S k' =>
      match String.get (rnd 0 mod String.length population) population with
      | Some c => c :: random_choices (fun i => rnd (S i)) population k'
      | None => random_choices (fun i => rnd (S i)) population k'
      end
  end.

(** [''.join(chars)] *)
Definition join_chars (l : list ascii) : string := string_of_list_ascii l.

(** The [if not request.filename: ... else: ...] block. *)
Definition output_filename (E : env) (requested : option string) : string :=
  if negb (Py.truthy requested)
  then
    let random_name :=
      join_chars (random_choices (random_index E) ascii_lowercase 10) in
    random_name +:+ ".mp3"
  else
    let given := Py.or_else requested "" in
    if Py.endswith given ".mp3" then given else given +:+ ".mp3".

Definition text_to_audio (E : env) (request : TextToAudioRequest)
    : M state TextToAudioResponse :=
  try_except
    (let job_id := uuid4 E in
     when (negb (String.eqb (voice_type request) "male"
                 || String.eqb (voice_type request) "female"))
       (raise (HTTPException HTTP_400_BAD_REQUEST
                 (Lit "Voice type must be 'male' or 'female'"))) ;;;
     let fname := output_filename E (filename request) in
     response <-
       (emit (PostGenerateSpeech job_id (text request) (voice_type request) fname) ;;;
        match post_generate_speech E job_id (text request)
                (voice_type request) fname with
        | Some r => ret r
        | None => raise (Raised "httpx.AsyncClient.post")
        end) ;;
     when (negb (status_code response =? 200)%Z)
       (raise (HTTPException (status_code response)
                 (Lit "Text-to-speech generation failed"))) ;;;
     json response ;;;
     ret {| t_id := job_id;
            t_filename := fname;
            t_audio_url := "/api/v1/download/" +:+ job_id;
            t_voice_type := voice_type request;
            t_status := "completed" |})
    (fun e =>
       raise (HTTPException HTTP_500_INTERNAL_SERVER_ERROR
                (Fmt "Internal server error: " e))).

(** A request arrives with an empty trace. *)
Definition start (d : files) : state := {| fs := d; trace := [] |}.

(** What [FileResponse] sends: the file at [d_path], read when the response
    is built. *)
Record FileResponse : Type := {
  d_path : string;
  d_media_type : string;
  d_filename : string;
  d_body : list byte
}.

(** [GET /api/v1/download/{job_id}] *)
Definition download_file (job_id : string) : M state FileResponse :=
  try_except
    (let file_path := Py.path_join TEMP_FILES_DIR (job_id +:+ ".mp3") in
     s <- get ;;
     match fs s !! file_path with
     | None =>
         raise (HTTPException HTTP_404_NOT_FOUND (Lit "File not found"))
     | Some bytes =>
         ret {| d_path := file_path;
                d_media_type := "audio/mpeg";
                d_filename := job_id +:+ ".mp3";
                d_body := bytes |}
     end)
    (fun e =>
       raise (HTTPException HTTP_500_INTERNAL_SERVER_ERROR
                (Fmt "Internal server error: " e))).

(** The characters [random.choices] can draw from [ascii_lowercase]. *)
Definition is_lowercase_letter (c : ascii) : bool :=
  Py.in_range 97 122 (nat_of_ascii c).

Fixpoint all_lowercase_letters (s : string) : bool :=
  match s with
  | EmptyString => true
  | String c s' => is_lowercase_letter c && all_lowercase_letters s'
  end.

End Gateway.

(** ** The media processor ([src/media-processor/main.py]) *)

Module Processor.

Record UploadFile : Type := {
  upload_content : list byte
}.

(** What [ffprobe] printed, or the empty dict. *)
Inductive file_info : Type :=
| NoInfo
| Info (json : string).

Record transcription : Type := {
  text : string;
  language : string;
  segments : list string
}.

Record result : Type := {
  r_job_id : string;
  r_filename : string;
  r_file_size : Z;
  r_file_info : file_info;
  r_transcription : transcription;
  r_status : string;
  r_processed_at : string
}.

(** What one [ffmpeg] run did: its exit status and the output file it
    left, if any. *)
Record ffmpeg_run : Type := {
  exit_ok : bool;
  output : option (list byte)
}.

(** The external effects, in order.  [Transcribe] records the path given
    to the model and the bytes found there. *)
Inductive event : Type :=
| SaveUpload (path : string) (content : list byte)
| Probe (path : string)
| Transcode (input_path output_path : string)
| Transcribe (path : string) (audio : option (list byte)).

(** Outcomes of the external calls; [None] from [whisper] is an exception
    raised by [model.transcribe]. *)
Record env : Type := {
  now : string;
  write_upload : string -> list byte -> write_outcome;
  ffprobe : string -> option (list byte) -> file_info;
  ffmpeg : string -> option (list byte) -> string -> ffmpeg_run;
  whisper : string -> option (list byte) -> option transcription
}.

(** The temp directory, the trace, and the two locals that the [finally]
    block reads. *)
Record state : Type := {
  fs : files;
  trace : list event;
  temp_input_path : option string;
  temp_audio_path : option string
}.

Definition emit (e : event) : M state unit :=
  modify (fun s => {| fs := fs s; trace := trace s ++ [e];
                      temp_input_path := temp_input_path s;
                      temp_audio_path := temp_audio_path s |}).

Definition set_fs (f : files -> files) : M state unit :=
  modify (fun s => {| fs := f (fs s); trace := trace s;
                      temp_input_path := temp_input_path s;
                      temp_audio_path := temp_audio_path s |}).

Definition set_temp_input_path (p : string) : M state unit :=
  modify (fun s => {| fs := fs s; trace := trace s;
                      temp_input_path := Some p;
                      temp_audio_path := temp_audio_path s |}).

Definition set_temp_audio_path (p : string) : M state unit :=
  modify (fun s => {| fs := fs s; trace := trace s;
                      temp_input_path := temp_input_path s;
                      temp_audio_path := Some p |}).

(** [with open(path, "wb") as f: f.write(content)] *)
Definition save_upload (E : env) (path : string) (content : list byte)
    : M state unit :=
  emit (SaveUpload path content) ;;;
  set_fs (fun d => apply_write d path content (write_upload E path content)) ;;;
  match write_upload E path content with
  | Written => ret tt
  | WriteFailed _ => raise (Raised "open/write")
  end.

(** Never raises: a failing [ffprobe] yields the empty dict. *)
Definition extract_audio_info (E : env) (file_path : string)
    : M state file_info :=
  s <- get ;;
  emit (Probe file_path) ;;;
  ret (ffprobe E file_path (fs s !! file_path)).

(** Never raises: [True] exactly when [ffmpeg] exits with status 0. *)
Definition convert_to_audio (E : env) (input_path output_path : string)
    : M state bool :=
  s <- get ;;
  emit (Transcode input_path output_path) ;;;
  let run := ffmpeg E input_path (fs s !! input_path) output_path in
  set_fs (fun d => match output run with
                   | Some audio => <[output_path := audio]> d
                   | None => d
                   end) ;;;
  ret (exit_ok run).

Definition transcribe_audio (E : env) (file_path : string)
    : M state transcription :=
  s <- get ;;
  emit (Transcribe file_path (fs s !! file_path)) ;;;
  match whisper E file_path (fs s !! file_path) with
  | Some t => ret t
  | None => raise (Raised "model.transcribe")
  end.

Definition video_extensions : list string :=
  ["mp4"; "avi"; "mov"; "mkv"; "flv"; "wmv"; "webm"].

(** [x in l] on a list of strings *)
Definition str_in (x : string) (l : list string) : bool :=
  existsb (String.eqb x) l.

(** [filename.lower().split('.')[-1] if '.' in filename else ''] *)
Definition file_extension (filename : string) : string :=
  if Py.contains "." filename
  then Py.last_item (Py.split "." (Py.lower filename))
  else "".

Definition is_video (filename : string) : bool :=
  str_in (file_extension filename) video_extensions.

(** The body of the [try] block. *)
Definition process_media_try (E : env) (file : UploadFile)
    (job_id filename : string) : M state result :=
  let content := upload_content file in
  let file_size := Py.len content in
  when (file_size >? 150 * 1024 * 1024)%Z
    (raise (HTTPException HTTP_413_REQUEST_ENTITY_TOO_LARGE
              (Lit "File size exceeds 150MB limit"))) ;;;
  let input_path := Py.path_join TEMP_FILES_DIR (job_id +:+ "_" +:+ filename) in
  set_temp_input_path input_path ;;;
  save_upload E input_path content ;;;
  info <- extract_audio_info E input_path ;;
  audio_path <-
    (if str_in (file_extension filename) video_extensions
     then
       let audio_out := Py.path_join TEMP_FILES_DIR (job_id +:+ "_audio.mp3") in
       set_temp_audio_path audio_out ;;;
       converted <- convert_to_audio E input_path audio_out ;;
       when (negb converted)
         (raise (HTTPException HTTP_500_INTERNAL_SERVER_ERROR
                   (Lit "Failed to convert video to audio"))) ;;;
       ret audio_out
     else ret input_path) ;;
  transcribed <- transcribe_audio E audio_path ;;
  ret {| r_job_id := job_id;
         r_filename := filename;
         r_file_size := file_size;
         r_file_info := info;
         r_transcription := transcribed;
         r_status := "completed";
         r_processed_at := now E |}.

(** [if p and os.path.exists(p): os.remove(p)] *)
Definition remove_if_present (p : option string) : M state unit :=
  match p with
  | Some path =>
      if Py.is_empty path then ret tt
      else
        s <- get ;;
        match fs s !! path with
        | Some _ => set_fs (delete path)
        | None => ret tt
        end
  | None => ret tt
  end.

(** The [finally] block. *)
Definition cleanup : M state unit :=
  s <- get ;;
  remove_if_present (temp_input_path s) ;;;
  remove_if_present (temp_audio_path s).

Definition process_media (E : env) (file : UploadFile)
    (job_id filename : string) : M state result :=
  try_finally
    (try_except
       (process_media_try E file job_id filename)
       (fun e =>
          raise (HTTPException HTTP_500_INTERNAL_SERVER_ERROR
                   (Fmt "Media processing failed: " e))))
    cleanup.

(** A request arrives with both locals unset and an empty trace. *)
Definition start (d : files) : state :=
  {| fs := d; trace := []; temp_input_path := None; temp_audio_path := None |}.

Definition is_transcode (e : event) : bool :=
  match e with Transcode _ _ => true | _ => false end.

Definition is_transcribe (e : event) : bool :=
  match e with Transcribe _ _ => true | _ => false end.

Record supported_formats : Type := {
  audio_formats : list string;
  video_formats : list string;
  max_file_size : string
}.

(** [GET /supported-formats] *)
Definition get_supported_formats : supported_formats :=
  {| audio_formats := ["mp3"; "wav"; "flac"; "aac"; "ogg"; "wma"; "m4a"];
     video_formats := ["mp4"; "avi"; "mov"; "mkv"; "flv"; "wmv"; "webm"];
     max_file_size := "150MB" |}.

End Processor.

(** ** The speech synthesizer ([src/text-to-speech/main.py]) *)

Module Synth.

Record TTSRequest : Type := {
  job_id : string;
  text : string;
  voice_type : string;
  filename : option string;
  language : string;
  download_path : option string
}.

Record TTSResponse : Type := {
  r_job_id : string;
  r_filename : string;
  r_file_path : string;
  r_status : string;
  r_processed_at : string;
  r_download_url : string
}.

Record FileResponse : Type := {
  f_path : string;
  f_filename : string;
  f_media_type : string;
  f_content_disposition : string;
  f_body : list byte
}.

Inductive event : Type :=
| Primary (txt lang : string)
| Fallback (txt voice : string)
| SaveOutput (path : string) (content : list byte)
| CopyOutput (source destination : string).

(** Outcomes of the external calls; [None] is a raised exception. *)
Record env : Type := {
  now : string;
  gtts : string -> string -> option (list byte);
  pyttsx3 : string -> string -> option (list byte);
  write_output : string -> list byte -> write_outcome;
  default_download_path : option string;
  copy2 : string -> string -> write_outcome
}.

Record state : Type := {
  fs : files;
  trace : list event
}.

Definition emit (e : event) : M state unit :=
  modify (fun s => {| fs := fs s; trace := trace s ++ [e] |}).

Definition set_fs (f : files -> files) : M state unit :=
  modify (fun s => {| fs := f (fs s); trace := trace s |}).

Definition generate_gtts_speech (E : env) (txt lang : string)
    : M state (list byte) :=
  emit (Primary txt lang) ;;;
  match gtts E txt lang with
  | Some audio => ret audio
  | None => raise (Raised "gTTS")
  end.

Definition generate_pyttsx3_speech (E : env) (txt voice : string)
    : M state (list byte) :=
  emit (Fallback txt voice) ;;;
  match pyttsx3 E txt voice with
  | Some audio => ret audio
  | None => raise (Raised "pyttsx3")
  end.

Definition run_tts_generation (E : env) (txt voice lang : string)
    (use_gtts : bool) : M state (list byte) :=
  try_except
    (if use_gtts then generate_gtts_speech E txt lang
     else generate_pyttsx3_speech E txt voice)
    (fun e => raise e).

Definition get_default_download_path (E : env) : M state string :=
  match default_download_path E with
  | Some p => ret p
  | None => raise (Raised "Path.mkdir")
  end.

Definition copy_file_to_destination (E : env)
    (source_path destination_folder fname : string) : M state string :=
  try_except
    (let destination_path := Py.path_join destination_folder fname in
     s <- get ;;
     emit (CopyOutput source_path destination_path) ;;;
     match copy2 E source_path destination_path, fs s !! source_path with
     | Written, Some content =>
         set_fs (insert destination_path content) ;;;
         ret destination_path
     | WriteFailed (Some part), _ =>
         set_fs (insert destination_path part) ;;;
         raise (Raised "shutil.copy2")
     | _, _ => raise (Raised "shutil.copy2")
     end)
    (fun e => raise e).

Definition save_output (E : env) (path : string) (content : list byte)
    : M state unit :=
  emit (SaveOutput path content) ;;;
  set_fs (fun d => apply_write d path content (write_output E path content)) ;;;
  match write_output E path content with
  | Written => ret tt
  | WriteFailed _ => raise (Raised "open/write")
  end.

Definition voice_ok (v : string) : bool :=
  String.eqb v "male" || String.eqb v "female".

Definition generate_speech (E : env) (request : TTSRequest)
    : M state TTSResponse :=
  try_except
    (when (negb (voice_ok (voice_type request)))
       (raise (HTTPException HTTP_400_BAD_REQUEST
                 (Lit "Voice type must be 'male' or 'female'"))) ;;;
     when (Z.of_nat (String.length (text request)) >? 5000)%Z
       (raise (HTTPException HTTP_400_BAD_REQUEST
                 (Lit "Text is too long (max 5000 characters)"))) ;;;
     when (Py.is_empty (Py.strip (text request)))
       (raise (HTTPException HTTP_400_BAD_REQUEST
                 (Lit "Text cannot be empty"))) ;;;
     let fname0 := Py.or_else (filename request) (job_id request +:+ ".mp3") in
     let fname1 := if Py.endswith fname0 ".mp3" then fname0 else fname0 +:+ ".mp3" in
     named <-
       try_except
         (audio <- run_tts_generation E (text request) (voice_type request)
                     (language request) true ;;
          ret (fname1, audio))
         (fun _ =>
            let fname2 := Py.replace fname1 ".mp3" ".wav" in
            audio <- run_tts_generation E (text request) (voice_type request)
                       (language request) false ;;
            ret (fname2, audio)) ;;
     let fname := fst named in
     let audio_data := snd named in
     let temp_output_path := Py.path_join TEMP_FILES_DIR fname in
     save_output E temp_output_path audio_data ;;;
     download_folder <-
       (if Py.truthy (download_path request)
        then ret (Py.or_else (download_path request) "")
        else get_default_download_path E) ;;
     final_output_path <-
       copy_file_to_destination E temp_output_path download_folder fname ;;
     ret {| r_job_id := job_id request;
            r_filename := fname;
            r_file_path := final_output_path;
            r_status := "completed";
            r_processed_at := now E;
            r_download_url :=
              "/download/" +:+ job_id request +:+ "/" +:+ fname |})
    (fun e =>
       raise (HTTPException HTTP_500_INTERNAL_SERVER_ERROR
                (Fmt "Speech generation failed: " e))).

Definition download_file (job : string) (fname : string)
    : M state FileResponse :=
  try_except
    (let file_path := Py.path_join TEMP_FILES_DIR fname in
     s <- get ;;
     match fs s !! file_path with
     | None =>
         raise (HTTPException HTTP_404_NOT_FOUND (Lit "File not found"))
     | Some bytes =>
         let media_type :=
           if Py.endswith fname ".mp3" then "audio/mpeg" else "audio/wav" in
         ret {| f_path := file_path;
                f_filename := fname;
                f_media_type := media_type;
                f_content_disposition := "attachment; filename=" +:+ fname;
                f_body := bytes |}
     end)
    (fun e =>
       raise (HTTPException HTTP_500_INTERNAL_SERVER_ERROR
                (Fmt "Download failed: " e))).

(** A request arrives with an empty trace. *)
Definition start (d : files) : state := {| fs := d; trace := [] |}.

Definition is_fallback (e : event) : bool :=
  match e with Fallback _ _ => true | _ => false end.

Definition is_primary (e : event) : bool :=
  match e with Primary _ _ => true | _ => false end.

(** One entry of [engine.getProperty('voices')]. *)
Record voice : Type := {
  voice_id : string;
  voice_name : string
}.

Definition female_words : list string :=
  ["female"; "woman"; "zira"; "susan"; "anna"].

Definition male_words : list string :=
  ["male"; "man"; "david"; "mark"; "james"].

(** [any(word in voice_name for word in words)] *)
Definition any_word_in (voice_name : string) (words : list string) : bool :=
  existsb (Py.has_substring voice_name) words.

(** The [for voice in voices] loop of [generate_pyttsx3_speech]: the value
    of [selected_voice] when the loop is left. *)
Fixpoint selected_voice (vtype : string) (voices : list voice)
    : option string :=
  match voices with
  | [] => None
  | v :: rest =>
      let name := Py.lower (voice_name v) in
      if String.eqb vtype "female" && any_word_in name female_words
      then Some (voice_id v)
      else if String.eqb vtype "male" && any_word_in name male_words
      then Some (voice_id v)
      else selected_voice vtype rest
  end.

(** The test a voice has to pass inside the loop to be selected. *)
Definition voice_matches (vtype : string) (v : voice) : bool :=
  (String.eqb vtype "female"
   && any_word_in (Py.lower (voice_name v)) female_words)
  || (String.eqb vtype "male"
      && any_word_in (Py.lower (voice_name v)) male_words).

(** The voice handed to [engine.setProperty('voice', ...)], or [None] when
    the property is left alone. *)
Definition configured_voice (vtype : string) (voices : list voice)
    : option string :=
  match voices with
  | [] => None
  | first :: _ =>
      let selected := selected_voice vtype voices in
      if Py.truthy selected then selected else Some (voice_id first)
  end.

Record supported_languages : Type := {
  languages : list (string * string);
  voice_types : list string;
  max_text_length : Z
}.

(** [GET /supported-languages] *)
Definition get_supported_languages : supported_languages :=
  {| languages :=
       [("en", "English"); ("es", "Spanish"); ("fr", "French");
        ("de", "German"); ("it", "Italian"); ("pt", "Portuguese");
        ("ru", "Russian"); ("ja", "Japanese"); ("ko", "Korean");
        ("zh", "Chinese"); ("ar", "Arabic"); ("hi", "Hindi");
        ("tr", "Turkish"); ("pl", "Polish"); ("nl", "Dutch");
        ("sv", "Swedish"); ("da", "Danish"); ("no", "Norwegian");
        ("fi", "Finnish")];
     voice_types := ["male"; "female"];
     max_text_length := 5000 |}.

Definition is_save_output (e : event) : bool :=
  match e with SaveOutput _ _ => true | _ => false end.

(** The name under which [path] appears in the temp directory, when it is
    one of its direct entries. *)
Definition entry_name (path : string) : option string :=
  let base := TEMP_FILES_DIR +:+ "/" in
  if Py.startswith path base
  then
    let name := Py.drop (String.length base) path in
    if Py.is_empty name || Py.contains "/" name then None else Some name
  else None.

(** [os.listdir(TEMP_FILES_DIR)]; the order is that of the directory. *)
Definition listdir (d : files) : list string :=
  omap (fun entry => entry_name (fst entry)) (map_to_list d).

Record file_entry : Type := {
  e_filename : string;
  e_size : Z;
  e_created : string;
  e_download_url : string
}.

Record file_listing : Type := {
  l_job_id : string;
  l_files : list file_entry
}.

(** The [for filename in os.listdir(...)] loop of [get_file_info]; a name
    whose [os.stat] fails ends it with that exception. *)
Fixpoint collect_files (ctime : string -> string) (job : string) (d : files)
    (names : list string) : exn + list file_entry :=
  match names with
  | [] => inr []
  | fname :: rest =>
      if Py.startswith fname job
      then
        let file_path := Py.path_join TEMP_FILES_DIR fname in
        match d !! file_path with
        | None => inl (Raised "os.stat")
        | Some content =>
            match collect_files ctime job d rest with
            | inl e => inl e
            | inr found =>
                inr ({| e_filename := fname;
                        e_size := Py.len content;
                        e_created := ctime file_path;
                        e_download_url :=
                          "/download/" +:+ job +:+ "/" +:+ fname |}
                     :: found)
            end
        end
      else collect_files ctime job d rest
  end.

(** [GET /files/{job_id}]; [ctime] gives the creation time of a path. *)
Definition get_file_info (ctime : string -> string) (job : string)
    : M state file_listing :=
  try_except
    (s <- get ;;
     match collect_files ctime job (fs s) (listdir (fs s)) with
     | inl e => raise e
     | inr found => ret {| l_job_id := job; l_files := found |}
     end)
    (fun e =>
       raise (HTTPException HTTP_500_INTERNAL_SERVER_ERROR
                (Fmt "Failed to get file info: " e))).

(** The value of [filename] in [generate_speech] when the primary engine is
    called: the requested name, or the job id, with ".mp3" at its end. *)
Definition mp3_name (request : TTSRequest) : string :=
  let fname0 := Py.or_else (filename request) (job_id request +:+ ".mp3") in
  if Py.endswith fname0 ".mp3" then fname0 else fname0 +:+ ".mp3".

(** The three input checks, in the order the handler makes them. *)
Definition valid (request : TTSRequest) : bool :=
  voice_ok (voice_type request)
  && negb (Z.of_nat (String.length (text request)) >? 5000)%Z
  && negb (Py.is_empty (Py.strip (text request))).

End Synth.

(** ** The gateway in front of the synthesizer *)

Module Pipeline.

(** The body of the gateway's [POST /generate-speech]: the four payload
    fields, with the defaults of [TTSRequest] for the others. *)
Definition payload (job_id txt voice fname : string) : Synth.TTSRequest :=
  {| Synth.job_id := job_id;
     Synth.text := txt;
     Synth.voice_type := voice;
     Synth.filename := Some fname;
     Synth.language := "en";
     Synth.download_path := None |}.

(** What the synthesizer, started on the temp directory [d], answers to
    that body: its status line; the body of the answer is JSON both for a
    returned model and for an [HTTPException]. *)
Definition speech_backend (SE : Synth.env) (d : files)
    (job_id txt voice fname : string) : option Gateway.downstream :=
  let answer :=
    fst (Synth.generate_speech SE (payload job_id txt voice fname)
           (Synth.start d)) in
  Some {| Gateway.status_code := status_of answer; Gateway.json_ok := true |}.

(** A gateway whose text-to-speech calls are served by that synthesizer. *)
Definition gateway_env (GE : Gateway.env) (SE : Synth.env) (d : files)
    : Gateway.env :=
  {| Gateway.uuid4 := Gateway.uuid4 GE;
     Gateway.now := Gateway.now GE;
     Gateway.random_index := Gateway.random_index GE;
     Gateway.write_temp := Gateway.write_temp GE;
     Gateway.post_process_media := Gateway.post_process_media GE;
     Gateway.post_generate_speech := speech_backend SE d |}.

End Pipeline.

(** ** Sample requests and environments *)

Module Sample.

Definition uuid : string := "123e4567-e89b-42d3-a456-426614174000".

Definition ok_200 : Gateway.downstream :=
  {| Gateway.status_code := 200; Gateway.json_ok := true |}.

(** A gateway whose disk works and whose downstream calls end as given. *)
Definition gateway_env (media speech : option Gateway.downstream)
    : Gateway.env :=
  {| Gateway.uuid4 := uuid;
     Gateway.now := "2025-01-01T00:00:00";
     Gateway.random_index := fun i => 7 * i + 3;
     Gateway.write_temp := fun _ _ => Written;
     Gateway.post_process_media := fun _ _ _ => media;
     Gateway.post_generate_speech := fun _ _ _ _ => speech |}.

Definition upload (name : string) (content : list byte) : Gateway.UploadFile :=
  {| Gateway.upload_filename := Some name;
     Gateway.upload_content := content;
     Gateway.upload_content_type := Some "audio/mpeg" |}.

Definition text_request (txt voice : string) (fname : option string)
    : Gateway.TextToAudioRequest :=
  {| Gateway.text := txt; Gateway.voice_type := voice;
     Gateway.filename := fname |}.

Definition heard : Processor.transcription :=
  {| Processor.text := "hello"; Processor.language := "en";
     Processor.segments := ["hello"] |}.

(** A processor whose disk works, with the given [ffmpeg] run and
    transcription outcome. *)
Definition processor_env (run : Processor.ffmpeg_run)
    (result : option Processor.transcription) : Processor.env :=
  {| Processor.now := "2025-01-01T00:00:00";
     Processor.write_upload := fun _ _ => Written;
     Processor.ffprobe := fun _ _ => Processor.NoInfo;
     Processor.ffmpeg := fun _ _ _ => run;
     Processor.whisper := fun _ _ => result |}.

Definition media (content : list byte) : Processor.UploadFile :=
  {| Processor.upload_content := content |}.

(** A synthesizer whose disk works, with the given engine outcomes. *)
Definition synth_env (primary fallback : option (list byte)) : Synth.env :=
  {| Synth.now := "2025-01-01T00:00:00";
     Synth.gtts := fun _ _ => primary;
     Synth.pyttsx3 := fun _ _ => fallback;
     Synth.write_output := fun _ _ => Written;
     Synth.default_download_path := Some "/root/Downloads";
     Synth.copy2 := fun _ _ => Written |}.

Definition tts_request (txt voice : string) (fname : option string)
    : Synth.TTSRequest :=
  {| Synth.job_id := uuid; Synth.text := txt; Synth.voice_type := voice;
     Synth.filename := fname; Synth.language := "en";
     Synth.download_path := None |}.

Fixpoint spaces (n : nat) : string :=
  match n with
  | O => EmptyString
  | S n' => String " " (spaces n')
  end.

(** 5001 blanks *)
Definition long_blank : string := spaces (5000 + 1).

(** 5001 letters *)
Fixpoint letters (n : nat) : string :=
  match n with
  | O => EmptyString
  | S n' => String "a" (letters n')
  end.

Definition long_text : string := letters (5000 + 1).

Definition three_bytes : list byte := [x01; x02; x03].

End Sample.

(** ** Facts about the Python primitives *)

Section PyFacts.

Lemma len_zeros n : (0 <= n)%Z -> Py.len (Py.zeros n) = n.
Proof.
  intros H. unfold Py.len, Py.zeros.
  rewrite repeat_length. apply Z2Nat.id, H.
Qed.

Lemma endswith_refl s : Py.endswith s s = true.
Proof.
  destruct s; cbn [Py.endswith]; rewrite String.eqb_refl; reflexivity.
Qed.

Lemma endswith_app s suf : Py.endswith (s +:+ suf) suf = true.
Proof.
  induction s as [|c s IH].
  - apply endswith_refl.
  - change (String c s +:+ suf) with (String c (s +:+ suf)).
    cbn [Py.endswith]. rewrite IH. apply orb_true_r.
Qed.

Lemma endswith_inv s suf :
  Py.endswith s suf = true -> exists p, s = p +:+ suf.
Proof.
  induction s as [|c s IH]; cbn [Py.endswith]; intros H.
  - rewrite orb_false_r in H. apply String.eqb_eq in H. subst.
    exists EmptyString. reflexivity.
  - apply orb_true_iff in H as [H|H].
    + apply String.eqb_eq in H. exists EmptyString. exact H.
    + destruct (IH H) as [p ->]. exists (String c p). reflexivity.
Qed.

Lemma length_append a b :
  String.length (a +:+ b) = String.length a + String.length b.
Proof.
  induction a as [|c a IH]; cbn [String.append String.length]; lia.
Qed.

Lemma endswith_length s suf :
  Py.endswith s suf = true -> String.length suf <= String.length s.
Proof.
  intros H. destruct (endswith_inv _ _ H) as [p ->].
  rewrite length_append. lia.
Qed.

(** Two suffixes of one string that have the same length are equal. *)
Lemma endswith_unique s a b :
  String.length a = String.length b ->
  Py.endswith s a = true -> Py.endswith s b = true -> a = b.
Proof.
  intros Hlen. induction s as [|c s IH]; cbn [Py.endswith]; intros Ha Hb.
  - rewrite orb_false_r in Ha, Hb.
    apply String.eqb_eq in Ha, Hb. congruence.
  - apply orb_true_iff in Ha as [Ha|Ha], Hb as [Hb|Hb].
    + apply String.eqb_eq in Ha, Hb. congruence.
    + apply String.eqb_eq in Ha. apply endswith_length in Hb.
      subst a. cbn [String.length] in Hlen. lia.
    + apply String.eqb_eq in Hb. apply endswith_length in Ha.
      subst b. cbn [String.length] in Hlen. lia.
    + exact (IH Ha Hb).
Qed.

(** An occurrence of ".mp3" never straddles the start of a final ".mp3". *)
Lemma startswith_mp3_app a s :
  Py.startswith (String a (s +:+ ".mp3")) ".mp3"
  = Py.startswith (String a s) ".mp3"
  /\ (Py.startswith (String a s) ".mp3" = true -> 3 <= String.length s).
Proof.
  destruct s as [|x [|y [|z s]]];
    cbn [Py.startswith String.append String.length].
  all: repeat match goal with
       | |- context [Ascii.eqb ?u ?v] =>
           destruct (Ascii.eqb_spec u v); subst;
           cbn [andb Py.startswith String.append]
       end; split; try reflexivity; try discriminate; intros; try lia.
Qed.

Lemma replace_mp3_app s : forall k, k <= String.length s ->
  Py.replace_from ".mp3" ".wav" k (s +:+ ".mp3")
  = Py.replace_from ".mp3" ".wav" k s +:+ ".wav".
Proof.
  induction s as [|a s IH]; intros k Hk.
  - simpl in Hk. assert (k = 0) by lia. subst. reflexivity.
  - destruct k as [|k].
    + change (Py.replace_from ".mp3" ".wav" 0 (String a s +:+ ".mp3"))
        with (if Py.startswith (String a (s +:+ ".mp3")) ".mp3"
              then ".wav" +:+ Py.replace_from ".mp3" ".wav" 3 (s +:+ ".mp3")
              else String a (Py.replace_from ".mp3" ".wav" 0 (s +:+ ".mp3"))).
      change (Py.replace_from ".mp3" ".wav" 0 (String a s))
        with (if Py.startswith (String a s) ".mp3"
              then ".wav" +:+ Py.replace_from ".mp3" ".wav" 3 s
              else String a (Py.replace_from ".mp3" ".wav" 0 s)).
      destruct (startswith_mp3_app a s) as [-> Hlen].
      destruct (Py.startswith (String a s) ".mp3").
      * rewrite IH by (apply Hlen; reflexivity). reflexivity.
      * rewrite IH by lia. reflexivity.
    + simpl in Hk. cbn [Py.replace_from String.append]. apply IH. lia.
Qed.

(** Replacing ".mp3" by ".wav" in a name that ends in ".mp3" gives a name
    that ends in ".wav". *)
Lemma replace_mp3_endswith_wav s :
  Py.endswith s ".mp3" = true ->
  Py.endswith (Py.replace s ".mp3" ".wav") ".wav" = true.
Proof.
  intros H. destruct (endswith_inv _ _ H) as [p ->].
  unfold Py.replace. rewrite replace_mp3_app by lia. apply endswith_app.
Qed.

Lemma strip_empty s : Py.is_empty (Py.strip s) = Py.all_space s.
Proof.
  unfold Py.strip. induction s as [|c s IH]; [reflexivity|].
  cbn [Py.lstrip Py.all_space]. destruct (Py.isspace c) eqn:Hc.
  - exact IH.
  - cbn [Py.rstrip]. rewrite Hc. reflexivity.
Qed.

Lemma is_empty_true s : Py.is_empty s = true <-> s = EmptyString.
Proof. destruct s; split; intros H; try reflexivity; discriminate. Qed.

Lemma split_app sep pre rest :
  Py.split sep (pre +:+ String sep rest)
  = (Py.split sep pre ++ Py.split sep rest)%list.
Proof.
  induction pre as [|c pre IH]; cbn [String.append Py.split].
  - rewrite Ascii.eqb_refl. reflexivity.
  - rewrite IH. destruct (Ascii.eqb c sep); [reflexivity|].
    destruct (Py.split sep pre) as [|h t] eqn:Hs; [|reflexivity].
    destruct pre as [|a pre]; cbn [Py.split] in Hs; [discriminate|].
    destruct (Ascii.eqb a sep); [discriminate|].
    destruct (Py.split sep pre); discriminate.
Qed.

Lemma split_no_sep sep s :
  Py.contains sep s = false -> Py.split sep s = [s].
Proof.
  induction s as [|c s IH]; cbn [Py.contains Py.split]; [reflexivity|].
  intros H. apply orb_false_iff in H as [Hc Hs].
  rewrite Ascii.eqb_sym, Hc, (IH Hs). reflexivity.
Qed.

Lemma lower_app a b : Py.lower (a +:+ b) = Py.lower a +:+ Py.lower b.
Proof.
  induction a as [|c a IH]; cbn [String.append Py.lower]; congruence.
Qed.

Lemma lower_char_dot c : Ascii.eqb "." (Py.lower_char c) = Ascii.eqb "." c.
Proof. destruct c as [[] [] [] [] [] [] [] []]; reflexivity. Qed.

Lemma contains_dot_lower s :
  Py.contains "." (Py.lower s) = Py.contains "." s.
Proof.
  induction s as [|c s IH]; cbn [Py.lower Py.contains]; [reflexivity|].
  rewrite lower_char_dot, IH. reflexivity.
Qed.

Lemma contains_app c a b :
  Py.contains c (a +:+ b) = Py.contains c a || Py.contains c b.
Proof.
  induction a as [|d a IH]; cbn [String.append Py.contains]; [reflexivity|].
  rewrite IH. apply orb_assoc.
Qed.

(** The extension is the lowercased text after the last dot. *)
Lemma file_extension_last_dot pre ext :
  Py.contains "." ext = false ->
  Processor.file_extension (pre +:+ "." +:+ ext) = Py.lower ext.
Proof.
  intros H. unfold Processor.file_extension.
  rewrite contains_app. cbn [String.append Py.contains].
  rewrite Ascii.eqb_refl, orb_true_r.
  rewrite lower_app. cbn [Py.lower String.append].
  change (Py.lower_char ".") with "."%char.
  rewrite split_app, (split_no_sep _ (Py.lower ext))
    by (rewrite contains_dot_lower; exact H).
  unfold Py.last_item. apply last_last.
Qed.

Lemma file_extension_no_dot f :
  Py.contains "." f = false -> Processor.file_extension f = EmptyString.
Proof.
  intros H. unfold Processor.file_extension. rewrite H. reflexivity.
Qed.

Lemma path_join_nonempty b :
  Py.is_empty (Py.path_join TEMP_FILES_DIR b) = false.
Proof.
  unfold Py.path_join. destruct b as [|c b]; [reflexivity|].
  destruct (Py.startswith (String c b) "/"); reflexivity.
Qed.

End PyFacts.

(** ** The gateway *)

Ltac gw_unfold :=
  unfold Gateway.media_to_text, Gateway.text_to_audio, Gateway.save_temp,
    Gateway.path_exists, Gateway.remove, Gateway.json, Gateway.emit,
    Gateway.set_fs;
  run_m.

Ltac gw_simpl :=
  cbn [Gateway.fs Gateway.trace Gateway.start Gateway.status_code
       Gateway.json_ok Gateway.t_filename app apply_write negb fst snd].

Ltac gw_case :=
  match goal with
  | |- context [Gateway.write_temp ?E ?p ?c] =>
      destruct (Gateway.write_temp E p c) as [|[?|]]
  | |- context [Gateway.post_process_media ?E ?a ?b ?c] =>
      destruct (Gateway.post_process_media E a b c) as [[? []]|]
  | |- context [Gateway.post_generate_speech ?E ?a ?b ?c ?d] =>
      destruct (Gateway.post_generate_speech E a b c d) as [[? []]|]
  | |- context [(?x =? 200)%Z] => destruct (x =? 200)%Z
  | |- context [match ?m !! ?k with Some _ => _ | None => _ end] =>
      destruct (m !! k) eqn:?
  end.

Lemma text_to_audio_bad_voice E request s :
  Gateway.voice_type request <> "male" ->
  Gateway.voice_type request <> "female" ->
  Gateway.text_to_audio E request s =
    (inl (HTTPException 500
            (Fmt "Internal server error: "
               (HTTPException 400
                  (Lit "Voice type must be 'male' or 'female'")))),
     s).
Proof.
  intros Hm Hf. gw_unfold.
  apply String.eqb_neq in Hm, Hf. rewrite Hm, Hf. reflexivity.
Qed.

Lemma media_to_text_oversize E name content ctype s :
  (Py.len content > MAX_UPLOAD)%Z ->
  Gateway.media_to_text E
    {| Gateway.upload_filename := name;
       Gateway.upload_content := content;
       Gateway.upload_content_type := ctype |} s =
    (inl (HTTPException 500
            (Fmt "Internal server error: "
               (HTTPException 413 (Lit "File size exceeds 150MB limit")))),
     s).
Proof.
  intros H. gw_unfold. cbn [Gateway.upload_content].
  change (150 * 1024 * 1024)%Z with MAX_UPLOAD.
  destruct (Z.gtb_spec (Py.len content) MAX_UPLOAD); [reflexivity | lia].
Qed.

(** An upload within the limit gets past the size check: the next thing the
    handler does is write the temp file. *)
Lemma media_to_text_within_limit E name content ctype d :
  (Py.len content <= MAX_UPLOAD)%Z ->
  exists path rest,
    Gateway.trace
      (snd (Gateway.media_to_text E
              {| Gateway.upload_filename := name;
                 Gateway.upload_content := content;
                 Gateway.upload_content_type := ctype |}
              (Gateway.start d)))
    = Gateway.SaveTemp path content :: rest.
Proof.
  intros H. gw_unfold. cbn [Gateway.upload_content Gateway.upload_filename].
  change (150 * 1024 * 1024)%Z with MAX_UPLOAD.
  destruct (Z.gtb_spec (Py.len content) MAX_UPLOAD); [lia|].
  gw_simpl.
  repeat (gw_case; gw_simpl); eexists; eexists; reflexivity.
Qed.

(** When the write succeeds and the forwarding call raises, the handler
    answers 500 and the temp file is still there. *)
Lemma media_to_text_forward_raises E file d :
  (Py.len (Gateway.upload_content file) <= MAX_UPLOAD)%Z ->
  let job_id := Gateway.uuid4 E in
  let content := Gateway.upload_content file in
  let name :=
    Py.or_else (Gateway.upload_filename file)
               ("audio_" +:+ Py.take 8 job_id +:+ ".mp3") in
  let path := Py.path_join TEMP_FILES_DIR (job_id +:+ "_" +:+ name) in
  Gateway.write_temp E path content = Written ->
  Gateway.post_process_media E job_id name content = None ->
  let out := Gateway.media_to_text E file (Gateway.start d) in
  fst out = inl (HTTPException 500
                   (Fmt "Internal server error: "
                      (Raised "httpx.AsyncClient.post")))
  /\ Gateway.fs (snd out) !! path = Some content.
Proof.
  intros H job_id content name path Hw Hp out. subst out. gw_unfold.
  change (150 * 1024 * 1024)%Z with MAX_UPLOAD.
  destruct (Z.gtb_spec (Py.len (Gateway.upload_content file)) MAX_UPLOAD);
    [lia|].
  fold job_id. fold content. fold name. fold path.
  rewrite Hw, Hp. gw_simpl. split; [reflexivity|].
  apply lookup_insert_eq.
Qed.

(** When the forwarding call returns, whatever its status, the temp file is
    gone afterwards. *)
Lemma media_to_text_forward_returns E file d r :
  (Py.len (Gateway.upload_content file) <= MAX_UPLOAD)%Z ->
  let job_id := Gateway.uuid4 E in
  let content := Gateway.upload_content file in
  let name :=
    Py.or_else (Gateway.upload_filename file)
               ("audio_" +:+ Py.take 8 job_id +:+ ".mp3") in
  let path := Py.path_join TEMP_FILES_DIR (job_id +:+ "_" +:+ name) in
  Gateway.write_temp E path content = Written ->
  Gateway.post_process_media E job_id name content = Some r ->
  Gateway.fs (snd (Gateway.media_to_text E file (Gateway.start d))) !! path
  = None.
Proof.
  intros H job_id content name path Hw Hp. gw_unfold.
  change (150 * 1024 * 1024)%Z with MAX_UPLOAD.
  destruct (Z.gtb_spec (Py.len (Gateway.upload_content file)) MAX_UPLOAD);
    [lia|].
  fold job_id. fold content. fold name. fold path.
  rewrite Hw, Hp. gw_simpl. rewrite lookup_insert_eq.
  destruct r as [code []]; gw_simpl; destruct (code =? 200)%Z; gw_simpl;
    apply lookup_delete_eq.
Qed.

Lemma get_ascii_lowercase i :
  i < 26 ->
  exists c, String.get i Gateway.ascii_lowercase = Some c
            /\ Gateway.is_lowercase_letter c = true.
Proof.
  intros H.
  do 26 (destruct i as [|i]; [eexists; split; reflexivity|]).
  lia.
Qed.

Lemma random_choices_lowercase k : forall rnd,
  let l := Gateway.random_choices rnd Gateway.ascii_lowercase k in
  List.length l = k /\ forallb Gateway.is_lowercase_letter l = true.
Proof.
  induction k as [|k IH]; intros rnd; [split; reflexivity|].
  cbn [Gateway.random_choices].
  change (String.length Gateway.ascii_lowercase) with 26.
  destruct (get_ascii_lowercase (rnd 0 mod 26)) as (c & -> & Hc).
  { apply Nat.mod_upper_bound. discriminate. }
  destruct (IH (fun i => rnd (S i))) as [Hl Hf].
  cbn [List.length forallb]. rewrite Hl, Hc, Hf. split; reflexivity.
Qed.

Lemma join_chars_length l :
  String.length (Gateway.join_chars l) = List.length l.
Proof.
  induction l as [|c l IH]; cbn [Gateway.join_chars string_of_list_ascii
    String.length List.length]; [reflexivity|].
  f_equal. exact IH.
Qed.

Lemma join_chars_lowercase l :
  Gateway.all_lowercase_letters (Gateway.join_chars l)
  = forallb Gateway.is_lowercase_letter l.
Proof.
  induction l as [|c l IH]; [reflexivity|].
  cbn [Gateway.join_chars string_of_list_ascii Gateway.all_lowercase_letters
       forallb].
  f_equal. exact IH.
Qed.

(** Whatever [text_to_audio] returns carries the name computed by
    [output_filename]. *)
Lemma text_to_audio_returns E request s resp s' :
  Gateway.text_to_audio E request s = (inr resp, s') ->
  Gateway.t_filename resp = Gateway.output_filename E (Gateway.filename request).
Proof.
  gw_unfold.
  destruct (negb _); gw_simpl; [discriminate|].
  repeat (gw_case; gw_simpl); intros H; try discriminate.
  injection H as <- _. reflexivity.
Qed.

(** C4.  A text submission whose [voice_type] is neither "male" nor
    "female" is rejected by the gateway, and the handler ends in the state
    it started in: no event is emitted, so the text-to-speech service is
    never called. *)
Theorem invalid_voice_never_forwarded E request d :
  Gateway.voice_type request <> "male" ->
  Gateway.voice_type request <> "female" ->
  let out := Gateway.text_to_audio E request (Gateway.start d) in
  (exists e, fst out = inl e)
  /\ Gateway.trace (snd out) = []
  /\ (forall j t v f,
        ~ In (Gateway.PostGenerateSpeech j t v f) (Gateway.trace (snd out))).
Proof.
  intros Hm Hf out. subst out.
  rewrite (text_to_audio_bad_voice E request _ Hm Hf).
  cbn [fst snd Gateway.start Gateway.trace].
  split; [eexists; reflexivity|]. split; [reflexivity|].
  intros j t v f [].
Qed.

Lemma invalid_voice_never_forwarded_witness :
  "robot" <> "male" /\ "robot" <> "female" /\
  Gateway.trace
    (snd (Gateway.text_to_audio
            (Sample.gateway_env None (Some Sample.ok_200))
            (Sample.text_request "Hello world" "robot" None)
            (Gateway.start ∅))) = [].
Proof.
  assert (Hm : "robot" <> "male") by discriminate.
  assert (Hf : "robot" <> "female") by discriminate.
  split; [exact Hm|]. split; [exact Hf|].
  exact (proj1 (proj2 (invalid_voice_never_forwarded
                         (Sample.gateway_env None (Some Sample.ok_200))
                         (Sample.text_request "Hello world" "robot" None)
                         ∅ Hm Hf))).
Defined.

(** Each of the [k] letters is the one its own draw points at. *)
Lemma random_choices_nth k : forall rnd i,
  i < k ->
  nth_error (Gateway.random_choices rnd Gateway.ascii_lowercase k) i
  = String.get (rnd i mod 26) Gateway.ascii_lowercase.
Proof.
  induction k as [|k IH]; intros rnd i Hi; [lia|].
  cbn [Gateway.random_choices].
  change (String.length Gateway.ascii_lowercase) with 26.
  destruct (get_ascii_lowercase (rnd 0 mod 26)) as (c & Hc & _).
  { apply Nat.mod_upper_bound. discriminate. }
  rewrite Hc. destruct i as [|i]; cbn [nth_error].
  - symmetry. exact Hc.
  - apply (IH (fun j => rnd (S j))). lia.
Qed.

Lemma get_join_chars l : forall i,
  String.get i (Gateway.join_chars l) = nth_error l i.
Proof.
  induction l as [|c l IH]; intros [|i];
    cbn [Gateway.join_chars string_of_list_ascii String.get nth_error];
    try reflexivity.
  apply IH.
Qed.

Lemma get_beyond s : forall i, String.length s <= i -> String.get i s = None.
Proof.
  induction s as [|c s IH]; intros i Hi; [destruct i; reflexivity|].
  cbn [String.length] in Hi. destruct i as [|i]; [lia|].
  cbn [String.get]. apply IH. lia.
Qed.

Lemma get_none_length s : forall i,
  String.get i s = None -> String.length s <= i.
Proof.
  induction s as [|c s IH]; intros i H; cbn [String.length]; [lia|].
  destruct i as [|i]; cbn [String.get] in H; [discriminate H|].
  specialize (IH i H). lia.
Qed.

(** A lowercase letter sits in [ascii_lowercase] at its code minus 97. *)
Lemma lowercase_letter_index c :
  Gateway.is_lowercase_letter c = true ->
  String.get ((nat_of_ascii c - 97) mod 26) Gateway.ascii_lowercase = Some c.
Proof.
  destruct c as [[] [] [] [] [] [] [] []]; intros H;
    first [discriminate H | reflexivity].
Qed.

Lemma all_lowercase_get word : forall i c,
  Gateway.all_lowercase_letters word = true ->
  String.get i word = Some c -> Gateway.is_lowercase_letter c = true.
Proof.
  induction word as [|x word IH]; intros i c Hall Hget;
    [destruct i; discriminate Hget|].
  cbn [Gateway.all_lowercase_letters] in Hall.
  apply andb_true_iff in Hall as [Hx Hall].
  destruct i as [|i]; cbn [String.get] in Hget.
  - injection Hget as <-. exact Hx.
  - exact (IH i c Hall Hget).
Qed.

(** Any ten lowercase letters can come out of the draws. *)
Lemma every_default_name_is_drawn word :
  String.length word = 10 ->
  Gateway.all_lowercase_letters word = true ->
  exists rnd,
    Gateway.join_chars (Gateway.random_choices rnd Gateway.ascii_lowercase 10)
    = word.
Proof.
  intros Hlen Hall.
  exists (fun i => match String.get i word with
                   | Some c => nat_of_ascii c - 97
                   | None => 0
                   end).
  apply String.get_correct. intros i.
  destruct (random_choices_lowercase 10
              (fun i => match String.get i word with
                        | Some c => nat_of_ascii c - 97
                        | None => 0
                        end)) as [Hl _].
  cbn zeta in Hl.
  destruct (Nat.lt_ge_cases i 10) as [Hi | Hi].
  - rewrite get_join_chars, random_choices_nth by exact Hi.
    destruct (String.get i word) as [c|] eqn:Hc.
    + apply lowercase_letter_index. exact (all_lowercase_get _ _ _ Hall Hc).
    + apply get_none_length in Hc. lia.
  - rewrite !get_beyond; [reflexivity | lia |].
    rewrite join_chars_length, Hl. exact Hi.
Qed.

(** C7.  In every response the gateway's text intake returns: when no
    filename was given (absent or empty) the filename is ten letters of
    a-z followed by ".mp3", the letter at each position being the one the
    random draw for that position points at in [ascii_lowercase]; when a
    filename was given it is kept if it already ends in ".mp3" and gets
    ".mp3" appended otherwise, so it always ends in ".mp3".  The draws are
    free: any ten lowercase letters are the default name for some random
    source. *)
Theorem text_to_audio_filename E request s resp s' :
  Gateway.text_to_audio E request s = (inr resp, s') ->
  (Gateway.filename request = None \/
   Gateway.filename request = Some EmptyString ->
   exists name,
     Gateway.t_filename resp = name +:+ ".mp3"
     /\ String.length name = 10
     /\ Gateway.all_lowercase_letters name = true
     /\ (forall i,
           i < 10 ->
           String.get i name
           = String.get (Gateway.random_index E i mod 26)
               Gateway.ascii_lowercase))
  /\ (forall f,
        Gateway.filename request = Some f -> f <> EmptyString ->
        Gateway.t_filename resp
        = (if Py.endswith f ".mp3" then f else f +:+ ".mp3")
        /\ Py.endswith (Gateway.t_filename resp) ".mp3" = true)
  /\ (forall word,
        String.length word = 10 ->
        Gateway.all_lowercase_letters word = true ->
        exists rnd,
          Gateway.output_filename
            {| Gateway.uuid4 := Gateway.uuid4 E;
               Gateway.now := Gateway.now E;
               Gateway.random_index := rnd;
               Gateway.write_temp := Gateway.write_temp E;
               Gateway.post_process_media := Gateway.post_process_media E;
               Gateway.post_generate_speech := Gateway.post_generate_speech E |}
            None
          = word +:+ ".mp3").
Proof.
  intros H. rewrite (text_to_audio_returns _ _ _ _ _ H).
  unfold Gateway.output_filename. split; [|split].
  - intros Hnone.
    assert (Ht : Py.truthy (Gateway.filename request) = false)
      by (destruct Hnone as [-> | ->]; reflexivity).
    rewrite Ht. cbn [negb].
    destruct (random_choices_lowercase 10 (Gateway.random_index E)) as [Hl Hf].
    eexists. split; [reflexivity|].
    rewrite join_chars_length, join_chars_lowercase.
    split; [assumption|]. split; [assumption|].
    intros i Hi. rewrite get_join_chars. apply random_choices_nth, Hi.
  - intros f Hf Hne. rewrite Hf.
    destruct f as [|c f]; [congruence|]. cbn [Py.truthy Py.is_empty negb Py.or_else].
    destruct (Py.endswith (String c f) ".mp3") eqn:He.
    + split; [reflexivity | exact He].
    + split; [reflexivity | apply endswith_app].
  - intros word Hlen Hall.
    destruct (every_default_name_is_drawn word Hlen Hall) as [rnd Hrnd].
    exists rnd. cbn [Py.truthy negb Gateway.random_index].
    rewrite Hrnd. reflexivity.
Qed.

Lemma text_to_audio_filename_witness :
  Gateway.text_to_audio
    (Sample.gateway_env None (Some Sample.ok_200))
    (Sample.text_request "Hello world" "male" None)
    (Gateway.start ∅)
  = (inr {| Gateway.t_id := Sample.uuid;
            Gateway.t_filename := "dkryfmtaho.mp3";
            Gateway.t_audio_url := "/api/v1/download/" +:+ Sample.uuid;
            Gateway.t_voice_type := "male";
            Gateway.t_status := "completed" |},
     {| Gateway.fs := ∅;
        Gateway.trace :=
          [Gateway.PostGenerateSpeech Sample.uuid "Hello world" "male"
             "dkryfmtaho.mp3"] |})
  /\ (exists name,
        "dkryfmtaho.mp3" = name +:+ ".mp3"
        /\ String.length name = 10
        /\ Gateway.all_lowercase_letters name = true
        /\ (forall i,
              i < 10 ->
              String.get i name
              = String.get ((7 * i + 3) mod 26) Gateway.ascii_lowercase))
  /\ Gateway.text_to_audio
       (Sample.gateway_env None (Some Sample.ok_200))
       (Sample.text_request "Hello world" "male" (Some "song.wav"))
       (Gateway.start ∅)
     = (inr {| Gateway.t_id := Sample.uuid;
               Gateway.t_filename := "song.wav.mp3";
               Gateway.t_audio_url := "/api/v1/download/" +:+ Sample.uuid;
               Gateway.t_voice_type := "male";
               Gateway.t_status := "completed" |},
        {| Gateway.fs := ∅;
           Gateway.trace :=
             [Gateway.PostGenerateSpeech Sample.uuid "Hello world" "male"
                "song.wav.mp3"] |})
  /\ Py.endswith "song.wav.mp3" ".mp3" = true.
Proof.
  assert (Hdefault :
    Gateway.text_to_audio
      (Sample.gateway_env None (Some Sample.ok_200))
      (Sample.text_request "Hello world" "male" None)
      (Gateway.start ∅)
    = (inr {| Gateway.t_id := Sample.uuid;
              Gateway.t_filename := "dkryfmtaho.mp3";
              Gateway.t_audio_url := "/api/v1/download/" +:+ Sample.uuid;
              Gateway.t_voice_type := "male";
              Gateway.t_status := "completed" |},
       {| Gateway.fs := ∅;
          Gateway.trace :=
            [Gateway.PostGenerateSpeech Sample.uuid "Hello world" "male"
               "dkryfmtaho.mp3"] |})) by reflexivity.
  assert (Hgiven :
    Gateway.text_to_audio
      (Sample.gateway_env None (Some Sample.ok_200))
      (Sample.text_request "Hello world" "male" (Some "song.wav"))
      (Gateway.start ∅)
    = (inr {| Gateway.t_id := Sample.uuid;
              Gateway.t_filename := "song.wav.mp3";
              Gateway.t_audio_url := "/api/v1/download/" +:+ Sample.uuid;
              Gateway.t_voice_type := "male";
              Gateway.t_status := "completed" |},
       {| Gateway.fs := ∅;
          Gateway.trace :=
            [Gateway.PostGenerateSpeech Sample.uuid "Hello world" "male"
               "song.wav.mp3"] |})) by reflexivity.
  split; [exact Hdefault|]. split; [|split; [exact Hgiven|]].
  - exact (proj1 (text_to_audio_filename _ _ _ _ _ Hdefault)
             (or_introl eq_refl)).
  - refine (proj2 (proj1 (proj2 (text_to_audio_filename _ _ _ _ _ Hgiven))
                     "song.wav" _ _)).
    + reflexivity.
    + discriminate.
Defined.

(** C2.  An accepted three-byte upload whose forwarding call raises: the
    gateway answers 500 and the temp file it wrote is still in the temp
    directory when the handler is done. *)
Theorem temp_file_survives_failed_forward :
  let out :=
    Gateway.media_to_text (Sample.gateway_env None None)
      (Sample.upload "a.mp3" Sample.three_bytes) (Gateway.start ∅) in
  fst out = inl (HTTPException 500
                   (Fmt "Internal server error: "
                      (Raised "httpx.AsyncClient.post")))
  /\ Gateway.fs (snd out)
       !! "/app/temp_files/123e4567-e89b-42d3-a456-426614174000_a.mp3"
     = Some Sample.three_bytes.
Proof.
  apply (media_to_text_forward_raises (Sample.gateway_env None None)
           (Sample.upload "a.mp3" Sample.three_bytes) ∅).
  - vm_compute. discriminate.
  - reflexivity.
  - reflexivity.
Qed.

(** ** The media processor *)

Ltac proc_unfold :=
  unfold Processor.process_media, Processor.process_media_try,
    Processor.cleanup, Processor.save_upload, Processor.extract_audio_info,
    Processor.convert_to_audio, Processor.transcribe_audio,
    Processor.set_temp_input_path, Processor.set_temp_audio_path,
    Processor.emit, Processor.set_fs;
  run_m.

Ltac proc_simpl :=
  cbn [Processor.fs Processor.trace Processor.temp_input_path
       Processor.temp_audio_path Processor.exit_ok Processor.output
       Processor.start app apply_write negb fst snd];
  run_m.

Ltac proc_case :=
  match goal with
  | |- context [Processor.write_upload ?E ?p ?c] =>
      destruct (Processor.write_upload E p c) as [|lost]
  | |- context [Processor.ffmpeg ?E ?a ?b ?c] =>
      destruct (Processor.ffmpeg E a b c) as [[] [?|]]
  | |- context [Processor.whisper ?E ?a ?b] =>
      destruct (Processor.whisper E a b)
  | |- context [Processor.str_in ?a ?b] =>
      destruct (Processor.str_in a b) eqn:?
  end.

(** The guarded removal amounts to deleting the path. *)
Lemma remove_if_present_some p s :
  Py.is_empty p = false ->
  Processor.remove_if_present (Some p) s
  = (inr tt,
     {| Processor.fs := delete p (Processor.fs s);
        Processor.trace := Processor.trace s;
        Processor.temp_input_path := Processor.temp_input_path s;
        Processor.temp_audio_path := Processor.temp_audio_path s |}).
Proof.
  intros Hp. unfold Processor.remove_if_present. rewrite Hp.
  unfold Processor.set_fs. run_m.
  destruct (Processor.fs s !! p) eqn:Hl; [reflexivity|].
  rewrite delete_id by exact Hl. destruct s; reflexivity.
Qed.

Lemma remove_if_present_none s :
  Processor.remove_if_present None s = (inr tt, s).
Proof. reflexivity. Qed.

Ltac proc_cleanup :=
  rewrite ?remove_if_present_none;
  rewrite ?remove_if_present_some by apply path_join_nonempty;
  rewrite ?remove_if_present_none;
  proc_simpl.

Ltac map_below :=
  apply map_subseteq_spec; intros ? ?;
  repeat (rewrite lookup_delete_Some || rewrite lookup_insert_Some);
  intuition congruence.

Ltac map_gone :=
  repeat first
    [ apply lookup_delete_eq
    | apply lookup_delete_None; first [left; reflexivity | right] ].

Lemma process_media_oversize E content job filename d :
  (Py.len content > MAX_UPLOAD)%Z ->
  Processor.process_media E {| Processor.upload_content := content |}
    job filename (Processor.start d) =
    (inl (HTTPException 500
            (Fmt "Media processing failed: "
               (HTTPException 413 (Lit "File size exceeds 150MB limit")))),
     Processor.start d).
Proof.
  intros H. proc_unfold. cbn [Processor.upload_content].
  change (150 * 1024 * 1024)%Z with MAX_UPLOAD.
  destruct (Z.gtb_spec (Py.len content) MAX_UPLOAD); [reflexivity | lia].
Qed.

Lemma process_media_within_limit E content job filename d :
  (Py.len content <= MAX_UPLOAD)%Z ->
  exists path rest,
    Processor.trace
      (snd (Processor.process_media E {| Processor.upload_content := content |}
              job filename (Processor.start d)))
    = Processor.SaveUpload path content :: rest.
Proof.
  intros H. proc_unfold. cbn [Processor.upload_content].
  change (150 * 1024 * 1024)%Z with MAX_UPLOAD.
  destruct (Z.gtb_spec (Py.len content) MAX_UPLOAD); [lia|].
  proc_simpl.
  repeat (proc_case; proc_simpl).
  all: proc_cleanup.
  all: try destruct lost; proc_simpl; proc_cleanup.
  all: eexists; eexists; reflexivity.
Qed.

(** C3.  After [process_media], whatever happened on the way: the temp
    directory holds nothing that was not there before the request; unless
    the upload was turned away for its size (in which case nothing was
    written at all) the path of the saved upload is absent; and once a
    transcode was started the path of the intermediate audio file is
    absent.  All of it is the work of [cleanup], the [finally] block. *)
Theorem process_media_leaves_no_temp_files E file job filename d :
  let p_in := Py.path_join TEMP_FILES_DIR (job +:+ "_" +:+ filename) in
  let p_out := Py.path_join TEMP_FILES_DIR (job +:+ "_audio.mp3") in
  let out := Processor.process_media E file job filename (Processor.start d) in
  Processor.fs (snd out) ⊆ d
  /\ (if (Py.len (Processor.upload_content file) >? MAX_UPLOAD)%Z
      then snd out = Processor.start d
      else Processor.fs (snd out) !! p_in = None)
  /\ (In (Processor.Transcode p_in p_out) (Processor.trace (snd out)) ->
      Processor.fs (snd out) !! p_out = None).
Proof.
  intros p_in p_out out. subst out. proc_unfold.
  change (150 * 1024 * 1024)%Z with MAX_UPLOAD.
  destruct (Py.len (Processor.upload_content file) >? MAX_UPLOAD)%Z.
  - proc_simpl. repeat split; [reflexivity | intros []].
  - fold p_in. fold p_out. proc_simpl.
    repeat (proc_case; proc_simpl).
    all: proc_cleanup.
    all: try destruct lost; proc_simpl; proc_cleanup.
    all: split; [map_below|]; split; [map_gone|].
    all: intros Hin; try map_gone.
    all: repeat (destruct Hin as [Hin|Hin]; try discriminate Hin).
    all: try contradiction.
Qed.

(** C5, as amended.  For an upload that passed the size check and was
    saved, [ffmpeg] is run exactly when the extension of the filename is one
    of the seven video extensions.  When it is, the run comes after the save
    and the probe and before any transcription, a failed run ends the
    request without transcription, and a successful one is followed by a
    transcription of the intermediate audio path, which holds what [ffmpeg]
    wrote.  When it is not, the model is given the saved upload itself.
    The extension is the text after the last dot, lowercased. *)
Theorem transcode_iff_video_extension E file job filename d :
  let content := Processor.upload_content file in
  let p_in := Py.path_join TEMP_FILES_DIR (job +:+ "_" +:+ filename) in
  let p_out := Py.path_join TEMP_FILES_DIR (job +:+ "_audio.mp3") in
  let run := Processor.ffmpeg E p_in (Some content) p_out in
  let tr :=
    Processor.trace
      (snd (Processor.process_media E file job filename (Processor.start d))) in
  (Py.len content <= MAX_UPLOAD)%Z ->
  Processor.write_upload E p_in content = Written ->
  (existsb Processor.is_transcode tr = true
   <-> Processor.is_video filename = true)
  /\ (Processor.is_video filename = true ->
      exists rest,
        tr = [Processor.SaveUpload p_in content; Processor.Probe p_in;
              Processor.Transcode p_in p_out] ++ rest
        /\ (Processor.exit_ok run = false -> rest = [])
        /\ (Processor.exit_ok run = true ->
            exists audio,
              rest = [Processor.Transcribe p_out audio]
              /\ (forall a, Processor.output run = Some a -> audio = Some a)))
  /\ (Processor.is_video filename = false ->
      tr = [Processor.SaveUpload p_in content; Processor.Probe p_in;
            Processor.Transcribe p_in (Some content)])
  /\ (forall pre ext,
        filename = pre +:+ "." +:+ ext -> Py.contains "." ext = false ->
        Processor.is_video filename
        = Processor.str_in (Py.lower ext) Processor.video_extensions).
Proof.
  intros content p_in p_out run tr Hlen Hw. subst tr run.
  unfold Processor.is_video. proc_unfold.
  change (150 * 1024 * 1024)%Z with MAX_UPLOAD.
  fold content. fold p_in. fold p_out.
  destruct (Z.gtb_spec (Py.len content) MAX_UPLOAD); [lia|].
  rewrite Hw. proc_simpl. rewrite !lookup_insert_eq.
  assert (Hext : forall pre ext,
    filename = pre +:+ "." +:+ ext -> Py.contains "." ext = false ->
    Processor.str_in (Processor.file_extension filename)
      Processor.video_extensions
    = Processor.str_in (Py.lower ext) Processor.video_extensions).
  { intros pre ext -> Hdot. rewrite file_extension_last_dot by exact Hdot.
    reflexivity. }
  destruct (Processor.str_in (Processor.file_extension filename)
              Processor.video_extensions).
  - proc_simpl. rewrite !lookup_insert_eq.
    destruct (Processor.ffmpeg E p_in (Some content) p_out) as [[] [a|]];
      proc_simpl; rewrite ?lookup_insert_eq;
      repeat (proc_case; proc_simpl); proc_cleanup.
    all: split; [split; reflexivity|].
    all: split; [|split; [discriminate | exact Hext]].
    all: intros _; eexists; split; [reflexivity|].
    all: split; [intros; try reflexivity; discriminate|].
    all: intros; try discriminate.
    all: eexists; split; [reflexivity|]; intros a' Ha'; congruence.
  - proc_simpl. rewrite !lookup_insert_eq.
    repeat (proc_case; proc_simpl); proc_cleanup.
    all: split; [split; discriminate|].
    all: split; [discriminate|]; split; [reflexivity | exact Hext].
Qed.

Lemma transcode_iff_video_extension_witness :
  (Py.len Sample.three_bytes <= MAX_UPLOAD)%Z
  /\ Processor.is_video "Clip.Final.MP4" = true
  /\ Processor.trace
       (snd (Processor.process_media
               (Sample.processor_env
                  {| Processor.exit_ok := true;
                     Processor.output := Some [x04; x05] |}
                  (Some Sample.heard))
               (Sample.media Sample.three_bytes) "j1" "Clip.Final.MP4"
               (Processor.start ∅)))
     = [Processor.SaveUpload "/app/temp_files/j1_Clip.Final.MP4"
          Sample.three_bytes;
        Processor.Probe "/app/temp_files/j1_Clip.Final.MP4";
        Processor.Transcode "/app/temp_files/j1_Clip.Final.MP4"
          "/app/temp_files/j1_audio.mp3";
        Processor.Transcribe "/app/temp_files/j1_audio.mp3" (Some [x04; x05])].
Proof.
  assert (Hlen : (Py.len Sample.three_bytes <= MAX_UPLOAD)%Z)
    by (vm_compute; discriminate).
  assert (Hvideo : Processor.is_video "Clip.Final.MP4" = true) by reflexivity.
  split; [exact Hlen|]. split; [exact Hvideo|].
  destruct (proj1 (proj2 (transcode_iff_video_extension
              (Sample.processor_env
                 {| Processor.exit_ok := true;
                    Processor.output := Some [x04; x05] |}
                 (Some Sample.heard))
              (Sample.media Sample.three_bytes) "j1" "Clip.Final.MP4" ∅
              Hlen eq_refl)) Hvideo) as (rest & Htr & _ & Hok).
  destruct (Hok eq_refl) as (audio & Hrest & Haudio).
  rewrite Htr, Hrest, (Haudio _ eq_refl). reflexivity.
Defined.

(** C5, as stated, fails for an upload turned away by the size check: the
    extension of "clip.mp4" is a video extension, and nothing is transcoded
    (the trace of the request is empty). *)
Lemma oversized_video_is_not_transcoded :
  ~ (existsb Processor.is_transcode
       (Processor.trace
          (snd (Processor.process_media
                  (Sample.processor_env
                     {| Processor.exit_ok := true;
                        Processor.output := Some [x04; x05] |}
                     (Some Sample.heard))
                  {| Processor.upload_content := Py.zeros (MAX_UPLOAD + 1) |}
                  "j1" "clip.mp4" (Processor.start ∅)))) = true
     <-> Processor.is_video "clip.mp4" = true).
Proof.
  assert (Hbig : (Py.len (Py.zeros (MAX_UPLOAD + 1)) > MAX_UPLOAD)%Z).
  { rewrite len_zeros; [lia | discriminate]. }
  rewrite process_media_oversize by exact Hbig.
  cbn [snd Processor.start Processor.trace existsb].
  intros [_ H]. discriminate (H eq_refl).
Qed.

(** ** The speech synthesizer *)

Ltac synth_unfold :=
  unfold Synth.generate_speech, Synth.run_tts_generation,
    Synth.generate_gtts_speech, Synth.generate_pyttsx3_speech,
    Synth.save_output, Synth.get_default_download_path,
    Synth.copy_file_to_destination, Synth.emit, Synth.set_fs;
  run_m.

Ltac synth_simpl :=
  cbn [Synth.fs Synth.trace Synth.start Synth.r_filename
       app apply_write negb fst snd].

Ltac synth_case :=
  match goal with
  | |- context [Synth.gtts ?E ?a ?b] => destruct (Synth.gtts E a b)
  | |- context [Synth.pyttsx3 ?E ?a ?b] => destruct (Synth.pyttsx3 E a b)
  | |- context [Synth.write_output ?E ?p ?c] =>
      destruct (Synth.write_output E p c) as [|[?|]]
  | |- context [Py.truthy ?o] => destruct (Py.truthy o)
  | |- context [Synth.default_download_path ?E] =>
      destruct (Synth.default_download_path E)
  | |- context [Synth.copy2 ?E ?a ?b] =>
      destruct (Synth.copy2 E a b) as [|[?|]]
  | |- context [match ?m !! ?k with Some _ => _ | None => _ end] =>
      destruct (m !! k)
  end.

Lemma valid_inv request :
  Synth.valid request = true ->
  Synth.voice_ok (Synth.voice_type request) = true
  /\ (Z.of_nat (String.length (Synth.text request)) >? 5000)%Z = false
  /\ Py.is_empty (Py.strip (Synth.text request)) = false.
Proof.
  unfold Synth.valid. rewrite !andb_true_iff, !negb_true_iff. tauto.
Qed.

Lemma generate_speech_bad_voice E request s :
  Synth.voice_ok (Synth.voice_type request) = false ->
  Synth.generate_speech E request s =
    (inl (HTTPException 500
            (Fmt "Speech generation failed: "
               (HTTPException 400
                  (Lit "Voice type must be 'male' or 'female'")))),
     s).
Proof. intros H. synth_unfold. rewrite H. reflexivity. Qed.

Lemma generate_speech_too_long E request s :
  Synth.voice_ok (Synth.voice_type request) = true ->
  (Z.of_nat (String.length (Synth.text request)) > 5000)%Z ->
  Synth.generate_speech E request s =
    (inl (HTTPException 500
            (Fmt "Speech generation failed: "
               (HTTPException 400
                  (Lit "Text is too long (max 5000 characters)")))),
     s).
Proof.
  intros Hv Hl. synth_unfold. rewrite Hv.
  destruct (Z.gtb_spec (Z.of_nat (String.length (Synth.text request))) 5000);
    [reflexivity | lia].
Qed.

Lemma generate_speech_empty E request s :
  Synth.voice_ok (Synth.voice_type request) = true ->
  (Z.of_nat (String.length (Synth.text request)) <= 5000)%Z ->
  Py.all_space (Synth.text request) = true ->
  Synth.generate_speech E request s =
    (inl (HTTPException 500
            (Fmt "Speech generation failed: "
               (HTTPException 400 (Lit "Text cannot be empty")))),
     s).
Proof.
  intros Hv Hl He. synth_unfold. rewrite Hv, strip_empty, He.
  destruct (Z.gtb_spec (Z.of_nat (String.length (Synth.text request))) 5000);
    [lia | reflexivity].
Qed.

(** A request that passes the three checks is never answered with one of
    the three validation errors: from there on only the engines and the
    disk can fail. *)
Lemma generate_speech_valid E request s :
  Synth.valid request = true ->
  forall code detail,
    fst (Synth.generate_speech E request s)
    <> inl (HTTPException 500
              (Fmt "Speech generation failed: "
                 (HTTPException code detail))).
Proof.
  intros Hv code detail.
  destruct (valid_inv _ Hv) as (Hvoice & Hlen & Hstrip).
  synth_unfold. rewrite Hvoice, Hlen, Hstrip. synth_simpl.
  repeat (synth_case; synth_simpl); discriminate.
Qed.

(** C6.  For a request that passes validation and whose primary engine call
    raises: the fallback engine is called exactly once, right after the
    primary call; if it raises too the request fails with nothing further
    attempted; and every response that is returned carries a filename that
    ends in ".wav" and not in ".mp3", whatever filename was asked for. *)
Theorem fallback_once_then_wav E request d :
  Synth.valid request = true ->
  Synth.gtts E (Synth.text request) (Synth.language request) = None ->
  let out := Synth.generate_speech E request (Synth.start d) in
  let tr := Synth.trace (snd out) in
  List.length (filter Synth.is_fallback tr) = 1
  /\ List.length (filter Synth.is_primary tr) = 1
  /\ (exists rest,
        tr = Synth.Primary (Synth.text request) (Synth.language request)
             :: Synth.Fallback (Synth.text request) (Synth.voice_type request)
             :: rest)
  /\ (Synth.pyttsx3 E (Synth.text request) (Synth.voice_type request) = None ->
      fst out = inl (HTTPException 500
                       (Fmt "Speech generation failed: " (Raised "pyttsx3")))
      /\ tr = [Synth.Primary (Synth.text request) (Synth.language request);
               Synth.Fallback (Synth.text request) (Synth.voice_type request)])
  /\ (forall resp,
        fst out = inr resp ->
        Py.endswith (Synth.r_filename resp) ".wav" = true
        /\ Py.endswith (Synth.r_filename resp) ".mp3" = false).
Proof.
  intros Hv Hg out tr. subst tr out.
  destruct (valid_inv _ Hv) as (Hvoice & Hlen & Hstrip).
  set (fname0 :=
         Py.or_else (Synth.filename request) (Synth.job_id request +:+ ".mp3")).
  set (fname1 :=
         if Py.endswith fname0 ".mp3" then fname0 else fname0 +:+ ".mp3").
  assert (Hmp3 : Py.endswith fname1 ".mp3" = true).
  { subst fname1. destruct (Py.endswith fname0 ".mp3") eqn:He;
      [exact He | apply endswith_app]. }
  assert (Hwav : Py.endswith (Py.replace fname1 ".mp3" ".wav") ".wav" = true)
    by exact (replace_mp3_endswith_wav _ Hmp3).
  assert (Hnot : Py.endswith (Py.replace fname1 ".mp3" ".wav") ".mp3" = false).
  { destruct (Py.endswith (Py.replace fname1 ".mp3" ".wav") ".mp3") eqn:He;
      [|reflexivity].
    discriminate (endswith_unique _ ".wav" ".mp3" eq_refl Hwav He). }
  synth_unfold. fold fname0. fold fname1.
  rewrite Hvoice, Hlen, Hstrip, Hg. synth_simpl.
  destruct (Synth.pyttsx3 E (Synth.text request) (Synth.voice_type request));
    synth_simpl.
  - repeat (synth_case; synth_simpl).
    all: split; [reflexivity|]; split; [reflexivity|].
    all: split; [eexists; reflexivity|]; split; [discriminate|].
    all: intros resp Hr; try discriminate Hr.
    all: injection Hr as <-; synth_simpl; split; assumption.
  - split; [reflexivity|]; split; [reflexivity|].
    split; [eexists; reflexivity|]. split; [intros _; split; reflexivity|].
    intros resp Hr; discriminate Hr.
Qed.

Lemma fallback_once_then_wav_witness :
  Synth.valid (Sample.tts_request "Hello world" "female" (Some "a.mp3.b"))
  = true
  /\ fst (Synth.generate_speech
            (Sample.synth_env None (Some Sample.three_bytes))
            (Sample.tts_request "Hello world" "female" (Some "a.mp3.b"))
            (Synth.start ∅))
     = inr {| Synth.r_job_id := Sample.uuid;
              Synth.r_filename := "a.wav.b.wav";
              Synth.r_file_path := "/root/Downloads/a.wav.b.wav";
              Synth.r_status := "completed";
              Synth.r_processed_at := "2025-01-01T00:00:00";
              Synth.r_download_url :=
                "/download/" +:+ Sample.uuid +:+ "/a.wav.b.wav" |}
  /\ Py.endswith "a.wav.b.wav" ".wav" = true.
Proof.
  assert (Hrun :
    fst (Synth.generate_speech
           (Sample.synth_env None (Some Sample.three_bytes))
           (Sample.tts_request "Hello world" "female" (Some "a.mp3.b"))
           (Synth.start ∅))
    = inr {| Synth.r_job_id := Sample.uuid;
             Synth.r_filename := "a.wav.b.wav";
             Synth.r_file_path := "/root/Downloads/a.wav.b.wav";
             Synth.r_status := "completed";
             Synth.r_processed_at := "2025-01-01T00:00:00";
             Synth.r_download_url :=
               "/download/" +:+ Sample.uuid +:+ "/a.wav.b.wav" |})
    by (vm_compute; reflexivity).
  split; [reflexivity|]. split; [exact Hrun|].
  exact (proj1 (proj2 (proj2 (proj2 (proj2
           (fallback_once_then_wav
              (Sample.synth_env None (Some Sample.three_bytes))
              (Sample.tts_request "Hello world" "female" (Some "a.mp3.b"))
              ∅ eq_refl eq_refl)))) _ Hrun)).
Defined.

(** C9.  The synthesizer's download endpoint looks the file up under the
    temp directory by the filename alone: two requests that differ only in
    their job id get the same answer, and that answer is the content stored
    under [TEMP_FILES_DIR/filename], or the "not found" failure when nothing
    is stored there. *)
Theorem download_ignores_job_id j1 j2 fname s :
  Synth.download_file j1 fname s = Synth.download_file j2 fname s
  /\ Synth.download_file j1 fname s
     = match Synth.fs s !! Py.path_join TEMP_FILES_DIR fname with
       | Some bytes =>
           (inr {| Synth.f_path := Py.path_join TEMP_FILES_DIR fname;
                   Synth.f_filename := fname;
                   Synth.f_media_type :=
                     if Py.endswith fname ".mp3" then "audio/mpeg"
                     else "audio/wav";
                   Synth.f_content_disposition :=
                     "attachment; filename=" +:+ fname;
                   Synth.f_body := bytes |},
            s)
       | None =>
           (inl (HTTPException 500
                   (Fmt "Download failed: "
                      (HTTPException 404 (Lit "File not found")))),
            s)
       end.
Proof.
  split; [reflexivity|].
  unfold Synth.download_file. run_m.
  destruct (Synth.fs s !! Py.path_join TEMP_FILES_DIR fname); reflexivity.
Qed.

(** C10, as amended.  For a request with a valid voice type: a text longer
    than 5000 characters is rejected as too long, whether or not it is all
    whitespace; a text of at most 5000 characters is rejected as empty
    exactly when stripping it leaves the empty string, which is exactly when
    all its characters are whitespace.  In both cases the state is
    untouched. *)
Theorem text_checks_order E request s :
  Synth.voice_ok (Synth.voice_type request) = true ->
  let out := Synth.generate_speech E request s in
  let n := Z.of_nat (String.length (Synth.text request)) in
  (Py.strip (Synth.text request) = EmptyString
   <-> Py.all_space (Synth.text request) = true)
  /\ ((n > 5000)%Z ->
      out = (inl (HTTPException 500
                    (Fmt "Speech generation failed: "
                       (HTTPException 400
                          (Lit "Text is too long (max 5000 characters)")))),
             s))
  /\ ((n <= 5000)%Z ->
      (Py.strip (Synth.text request) = EmptyString
       <-> out = (inl (HTTPException 500
                         (Fmt "Speech generation failed: "
                            (HTTPException 400 (Lit "Text cannot be empty")))),
                  s))).
Proof.
  intros Hv out n. subst out n.
  assert (Hstrip : Py.strip (Synth.text request) = EmptyString
                   <-> Py.all_space (Synth.text request) = true)
    by (rewrite <- strip_empty; symmetry; apply is_empty_true).
  split; [exact Hstrip|]. split.
  - intros Hl. apply generate_speech_too_long; assumption.
  - intros Hl. split.
    + intros He. apply generate_speech_empty; [assumption.. | apply Hstrip, He].
    + intros Hout.
      destruct (Py.all_space (Synth.text request)) eqn:Hs;
        [apply Hstrip; reflexivity|].
      exfalso.
      apply (generate_speech_valid E request s) with (code := 400%Z)
        (detail := Lit "Text cannot be empty").
      * unfold Synth.valid. rewrite Hv, strip_empty, Hs.
        destruct (Z.gtb_spec
                    (Z.of_nat (String.length (Synth.text request))) 5000);
          [lia | reflexivity].
      * rewrite Hout. reflexivity.
Qed.

Lemma text_checks_order_witness :
  Synth.voice_ok "male" = true
  /\ Py.all_space Sample.long_blank = true
  /\ Synth.generate_speech
       (Sample.synth_env (Some Sample.three_bytes) None)
       (Sample.tts_request Sample.long_blank "male" None)
       (Synth.start ∅)
     = (inl (HTTPException 500
               (Fmt "Speech generation failed: "
                  (HTTPException 400
                     (Lit "Text is too long (max 5000 characters)")))),
        Synth.start ∅).
Proof.
  split; [reflexivity|]. split; [vm_compute; reflexivity|].
  apply (proj1 (proj2 (text_checks_order
                         (Sample.synth_env (Some Sample.three_bytes) None)
                         (Sample.tts_request Sample.long_blank "male" None)
                         (Synth.start ∅) eq_refl))).
  vm_compute. reflexivity.
Defined.

(** C10, as stated, fails for a request whose voice type is not valid: the
    text " " is all whitespace and short, and the request is rejected for
    its voice type, not as empty. *)
Lemma blank_text_with_bad_voice_is_not_rejected_as_empty :
  Py.strip " " = EmptyString
  /\ Synth.generate_speech
       (Sample.synth_env (Some Sample.three_bytes) None)
       (Sample.tts_request " " "robot" None) (Synth.start ∅)
     = (inl (HTTPException 500
               (Fmt "Speech generation failed: "
                  (HTTPException 400
                     (Lit "Voice type must be 'male' or 'female'")))),
        Synth.start ∅)
  /\ Synth.generate_speech
       (Sample.synth_env (Some Sample.three_bytes) None)
       (Sample.tts_request " " "robot" None) (Synth.start ∅)
     <> (inl (HTTPException 500
                (Fmt "Speech generation failed: "
                   (HTTPException 400 (Lit "Text cannot be empty")))),
         Synth.start ∅).
Proof.
  split; [reflexivity|].
  rewrite generate_speech_bad_voice by reflexivity.
  split; [reflexivity | discriminate].
Qed.

(** ** Across the services *)

(** C8.  The limit is 157286400 bytes.  An upload longer than that is
    rejected by the gateway's media intake and by the processor, each ending
    in the state it started in: no file written, nothing forwarded, no
    transcode, no transcription.  An upload of exactly that length passes
    the size check at both: the handler goes on to write the temp file. *)
Theorem oversize_upload_rejected content :
  MAX_UPLOAD = 157286400%Z
  /\ ((Py.len content > MAX_UPLOAD)%Z ->
      (forall E name ctype d,
         Gateway.media_to_text E
           {| Gateway.upload_filename := name;
              Gateway.upload_content := content;
              Gateway.upload_content_type := ctype |} (Gateway.start d)
         = (inl (HTTPException 500
                   (Fmt "Internal server error: "
                      (HTTPException 413
                         (Lit "File size exceeds 150MB limit")))),
            Gateway.start d))
      /\ (forall E job filename d,
            Processor.process_media E
              {| Processor.upload_content := content |} job filename
              (Processor.start d)
            = (inl (HTTPException 500
                      (Fmt "Media processing failed: "
                         (HTTPException 413
                            (Lit "File size exceeds 150MB limit")))),
               Processor.start d)))
  /\ (Py.len content = MAX_UPLOAD ->
      (forall E name ctype d,
         exists path rest,
           Gateway.trace
             (snd (Gateway.media_to_text E
                     {| Gateway.upload_filename := name;
                        Gateway.upload_content := content;
                        Gateway.upload_content_type := ctype |}
                     (Gateway.start d)))
           = Gateway.SaveTemp path content :: rest)
      /\ (forall E job filename d,
            exists path rest,
              Processor.trace
                (snd (Processor.process_media E
                        {| Processor.upload_content := content |} job filename
                        (Processor.start d)))
              = Processor.SaveUpload path content :: rest)).
Proof.
  split; [reflexivity|]. split.
  - intros H. split; intros.
    + apply media_to_text_oversize, H.
    + apply process_media_oversize, H.
  - intros H. split; intros.
    + apply media_to_text_within_limit. rewrite H. reflexivity.
    + apply process_media_within_limit. rewrite H. reflexivity.
Qed.

Lemma oversize_upload_rejected_witness :
  (Py.len (Py.zeros (MAX_UPLOAD + 1)) > MAX_UPLOAD)%Z
  /\ Processor.process_media
       (Sample.processor_env
          {| Processor.exit_ok := true; Processor.output := Some [x04] |}
          (Some Sample.heard))
       {| Processor.upload_content := Py.zeros (MAX_UPLOAD + 1) |}
       "j1" "clip.mp4" (Processor.start ∅)
     = (inl (HTTPException 500
               (Fmt "Media processing failed: "
                  (HTTPException 413 (Lit "File size exceeds 150MB limit")))),
        Processor.start ∅)
  /\ Py.len (Py.zeros MAX_UPLOAD) = MAX_UPLOAD
  /\ exists path rest,
       Gateway.trace
         (snd (Gateway.media_to_text
                 (Sample.gateway_env (Some Sample.ok_200) None)
                 {| Gateway.upload_filename := Some "clip.mp4";
                    Gateway.upload_content := Py.zeros MAX_UPLOAD;
                    Gateway.upload_content_type := None |}
                 (Gateway.start ∅)))
       = Gateway.SaveTemp path (Py.zeros MAX_UPLOAD) :: rest.
Proof.
  assert (Hbig : (Py.len (Py.zeros (MAX_UPLOAD + 1)) > MAX_UPLOAD)%Z).
  { rewrite len_zeros; [lia | discriminate]. }
  assert (Hmax : Py.len (Py.zeros MAX_UPLOAD) = MAX_UPLOAD).
  { apply len_zeros. discriminate. }
  split; [exact Hbig|]. split; [|split; [exact Hmax|]].
  - apply (proj2 (proj1 (proj2 (oversize_upload_rejected
                                  (Py.zeros (MAX_UPLOAD + 1)))) Hbig)).
  - apply (proj1 (proj2 (proj2 (oversize_upload_rejected
                                  (Py.zeros MAX_UPLOAD))) Hmax)).
Defined.

(** C1.  What the client sees for each input error: an oversized upload at
    either upload endpoint, a voice type that is neither "male" nor
    "female" at the gateway and at the synthesizer, an empty text and a text
    of 5001 characters at the synthesizer are all answered with status 500.
    The 413 or 400 the handler raises is caught by the handler's own
    [except Exception] clause and only survives inside the detail text. *)
Theorem client_errors_answered_with_500 :
  (forall E s,
     status_of (fst (Gateway.media_to_text E
                       {| Gateway.upload_filename := Some "a.mp3";
                          Gateway.upload_content := Py.zeros (MAX_UPLOAD + 1);
                          Gateway.upload_content_type := None |} s))
     = 500%Z)
  /\ (forall E job d,
        status_of (fst (Processor.process_media E
                          {| Processor.upload_content :=
                               Py.zeros (MAX_UPLOAD + 1) |}
                          job "a.mp3" (Processor.start d)))
        = 500%Z)
  /\ (forall E s,
        status_of (fst (Gateway.text_to_audio E
                          (Sample.text_request "Hello world" "robot" None) s))
        = 500%Z)
  /\ (forall E s,
        status_of (fst (Synth.generate_speech E
                          (Sample.tts_request "Hello world" "robot" None) s))
        = 500%Z)
  /\ (forall E s,
        status_of (fst (Synth.generate_speech E
                          (Sample.tts_request "" "male" None) s))
        = 500%Z)
  /\ (forall E s,
        status_of (fst (Synth.generate_speech E
                          (Sample.tts_request Sample.long_text "male" None) s))
        = 500%Z).
Proof.
  assert (Hbig : (Py.len (Py.zeros (MAX_UPLOAD + 1)) > MAX_UPLOAD)%Z).
  { rewrite len_zeros; [lia | discriminate]. }
  split; [|split; [|split; [|split; [|split]]]]; intros.
  - rewrite media_to_text_oversize by exact Hbig. reflexivity.
  - rewrite process_media_oversize by exact Hbig. reflexivity.
  - rewrite text_to_audio_bad_voice by discriminate. reflexivity.
  - rewrite generate_speech_bad_voice by reflexivity. reflexivity.
  - rewrite generate_speech_empty
      by (vm_compute; first [reflexivity | discriminate]).
    reflexivity.
  - rewrite generate_speech_too_long by (vm_compute; reflexivity).
    reflexivity.
Qed.

(** ** Further properties: the offline engine's choice of voice *)

Lemma append_assoc a b c : (a +:+ b) +:+ c = a +:+ (b +:+ c).
Proof.
  induction a as [|x a IH]; cbn [String.append]; [reflexivity|].
  f_equal. exact IH.
Qed.

Lemma startswith_app p b : Py.startswith (p +:+ b) p = true.
Proof.
  induction p as [|x p IH]; [reflexivity|].
  cbn [String.append Py.startswith]. rewrite Ascii.eqb_refl. exact IH.
Qed.

Lemma startswith_inv s : forall p,
  Py.startswith s p = true -> exists b, s = p +:+ b.
Proof.
  induction s as [|x s IH]; intros [|y p] H; cbn [Py.startswith] in H.
  - exists EmptyString. reflexivity.
  - discriminate.
  - eexists. reflexivity.
  - apply andb_true_iff in H as [Hxy Hp].
    apply Ascii.eqb_eq in Hxy. subst y.
    destruct (IH p Hp) as [b ->]. exists b. reflexivity.
Qed.

Lemma has_substring_intro a sub b :
  Py.has_substring (a +:+ sub +:+ b) sub = true.
Proof.
  induction a as [|x a IH].
  - change (EmptyString +:+ sub +:+ b) with (sub +:+ b).
    destruct (sub +:+ b) eqn:E; cbn [Py.has_substring];
      rewrite <- E, startswith_app; reflexivity.
  - change (String x a +:+ sub +:+ b) with (String x (a +:+ sub +:+ b)).
    cbn [Py.has_substring]. rewrite IH. apply orb_true_r.
Qed.

Lemma has_substring_inv s sub :
  Py.has_substring s sub = true -> exists a b, s = a +:+ sub +:+ b.
Proof.
  induction s as [|x s IH]; cbn [Py.has_substring]; intros H.
  - rewrite orb_false_r in H. apply startswith_inv in H as [b ->].
    exists EmptyString, b. reflexivity.
  - apply orb_true_iff in H as [H|H].
    + apply startswith_inv in H as [b ->]. exists EmptyString, b. reflexivity.
    + destruct (IH H) as (a & b & ->). exists (String x a), b. reflexivity.
Qed.

(** [in] on strings is transitive. *)
Lemma has_substring_trans s x y :
  Py.has_substring s x = true -> Py.has_substring x y = true ->
  Py.has_substring s y = true.
Proof.
  intros Hs Hx.
  apply has_substring_inv in Hs as (a & b & ->).
  apply has_substring_inv in Hx as (c & e & ->).
  rewrite !append_assoc, <- (append_assoc a c).
  apply has_substring_intro.
Qed.

Lemma selected_voice_in vtype voices i :
  Synth.selected_voice vtype voices = Some i ->
  exists v, In v voices /\ Synth.voice_id v = i.
Proof.
  induction voices as [|v rest IH]; cbn [Synth.selected_voice];
    [discriminate|].
  destruct (String.eqb vtype "female"
            && Synth.any_word_in (Py.lower (Synth.voice_name v))
                 Synth.female_words).
  { intros [= <-]. exists v. split; [left; reflexivity | reflexivity]. }
  destruct (String.eqb vtype "male"
            && Synth.any_word_in (Py.lower (Synth.voice_name v))
                 Synth.male_words).
  { intros [= <-]. exists v. split; [left; reflexivity | reflexivity]. }
  intros H. destruct (IH H) as (u & Hu & Hi).
  exists u. split; [right; exact Hu | exact Hi].
Qed.

Lemma selected_voice_first vtype v rest :
  Synth.voice_matches vtype v = true ->
  Synth.selected_voice vtype (v :: rest) = Some (Synth.voice_id v).
Proof.
  unfold Synth.voice_matches. cbn [Synth.selected_voice]. intros H.
  destruct (String.eqb vtype "female"
            && Synth.any_word_in (Py.lower (Synth.voice_name v))
                 Synth.female_words); [reflexivity|].
  cbn [orb] in H. rewrite H. reflexivity.
Qed.

Lemma selected_voice_skip vtype v rest :
  Synth.voice_matches vtype v = false ->
  Synth.selected_voice vtype (v :: rest) = Synth.selected_voice vtype rest.
Proof.
  unfold Synth.voice_matches. cbn [Synth.selected_voice]. intros H.
  apply orb_false_iff in H as [-> ->]. reflexivity.
Qed.

(** X1.  The offline engine is given a voice exactly when the list of
    installed voices is not empty, and the voice it is given is always the
    id of one of the installed voices. *)
Theorem configured_voice_is_installed vtype voices :
  (Synth.configured_voice vtype voices = None <-> voices = [])
  /\ (forall i,
        Synth.configured_voice vtype voices = Some i ->
        exists v, In v voices /\ Synth.voice_id v = i).
Proof.
  destruct voices as [|v0 rest]; cbn [Synth.configured_voice].
  - split; [split; reflexivity | discriminate].
  - destruct (Synth.selected_voice vtype (v0 :: rest)) as [i0|] eqn:Hsel;
      cbn [Py.truthy].
    + destruct (Py.is_empty i0); cbn [negb].
      * split; [split; discriminate|].
        intros i [= <-]. exists v0. split; [left; reflexivity | reflexivity].
      * split; [split; discriminate|].
        intros i [= <-]. exact (selected_voice_in _ _ _ Hsel).
    + split; [split; discriminate|].
      intros i [= <-]. exists v0. split; [left; reflexivity | reflexivity].
Qed.

Lemma selected_voice_after_unmatched vtype before v after :
  (forall u, In u before -> Synth.voice_matches vtype u = false) ->
  Synth.voice_matches vtype v = true ->
  Synth.selected_voice vtype (before ++ v :: after)%list
  = Some (Synth.voice_id v).
Proof.
  intros Hbefore Hv. induction before as [|u before IH]; cbn [app].
  - apply selected_voice_first, Hv.
  - rewrite selected_voice_skip by (apply Hbefore; left; reflexivity).
    apply IH. intros w Hw. apply Hbefore. right. exact Hw.
Qed.

Lemma configured_voice_of_selected vtype first rest i :
  Synth.selected_voice vtype (first :: rest) = Some i ->
  i <> EmptyString ->
  Synth.configured_voice vtype (first :: rest) = Some i.
Proof.
  intros Hsel Hi. unfold Synth.configured_voice. rewrite Hsel.
  cbn [Py.truthy]. destruct i; [congruence | reflexivity].
Qed.

(** X2.  The first installed voice that passes the keyword test for the
    requested voice type is the one configured, provided its id is not the
    empty string: voices are tried in list order and the search stops at
    the first hit. *)
Theorem first_matching_voice_wins vtype before v after :
  (forall u, In u before -> Synth.voice_matches vtype u = false) ->
  Synth.voice_matches vtype v = true ->
  Synth.voice_id v <> EmptyString ->
  Synth.configured_voice vtype (before ++ v :: after)%list
  = Some (Synth.voice_id v).
Proof.
  intros Hbefore Hv Hid.
  pose proof (selected_voice_after_unmatched vtype before v after Hbefore Hv)
    as Hsel.
  destruct (before ++ v :: after)%list as [|first l] eqn:E.
  - destruct before; discriminate E.
  - apply configured_voice_of_selected; assumption.
Qed.

Lemma first_matching_voice_wins_witness :
  Synth.voice_matches "female"
    {| Synth.voice_id := "v2"; Synth.voice_name := "Microsoft Zira Desktop" |}
  = true
  /\ Synth.configured_voice "female"
       [{| Synth.voice_id := "v1"; Synth.voice_name := "Microsoft David Desktop" |};
        {| Synth.voice_id := "v2"; Synth.voice_name := "Microsoft Zira Desktop" |};
        {| Synth.voice_id := "v3"; Synth.voice_name := "Susan" |}]
     = Some "v2".
Proof.
  split; [reflexivity|].
  apply (first_matching_voice_wins "female"
           [{| Synth.voice_id := "v1";
               Synth.voice_name := "Microsoft David Desktop" |}]
           {| Synth.voice_id := "v2";
              Synth.voice_name := "Microsoft Zira Desktop" |}
           [{| Synth.voice_id := "v3"; Synth.voice_name := "Susan" |}]).
  - intros u [<- | []]. reflexivity.
  - reflexivity.
  - discriminate.
Defined.

(** X3.  When no installed voice passes the keyword test for the requested
    voice type, the first installed voice is configured. *)
Theorem unmatched_voice_defaults_to_first vtype first rest :
  (forall u, In u (first :: rest) -> Synth.voice_matches vtype u = false) ->
  Synth.configured_voice vtype (first :: rest) = Some (Synth.voice_id first).
Proof.
  intros Hnone.
  assert (Hsel : forall l,
            (forall u, In u l -> Synth.voice_matches vtype u = false) ->
            Synth.selected_voice vtype l = None).
  { induction l as [|u l IH]; intros Hl; [reflexivity|].
    rewrite selected_voice_skip by (apply Hl; left; reflexivity).
    apply IH. intros w Hw. apply Hl. right. exact Hw. }
  unfold Synth.configured_voice. rewrite (Hsel _ Hnone). reflexivity.
Qed.

Lemma unmatched_voice_defaults_to_first_witness :
  Synth.configured_voice "female"
    [{| Synth.voice_id := "v1"; Synth.voice_name := "Microsoft David Desktop" |};
     {| Synth.voice_id := "v2"; Synth.voice_name := "Alex" |}]
  = Some "v1".
Proof.
  apply (unmatched_voice_defaults_to_first "female"
           {| Synth.voice_id := "v1";
              Synth.voice_name := "Microsoft David Desktop" |}
           [{| Synth.voice_id := "v2"; Synth.voice_name := "Alex" |}]).
  intros u [<- | [<- | []]]; reflexivity.
Defined.

(** X4.  Every name that contains "female" or "woman" also contains "male"
    or "man", so it passes the keyword test for a male voice: for a male
    request, a first installed voice named that way is the one configured,
    whatever voices follow it. *)
Theorem male_request_takes_female_named_voice v rest :
  Py.has_substring (Py.lower (Synth.voice_name v)) "female" = true
  \/ Py.has_substring (Py.lower (Synth.voice_name v)) "woman" = true ->
  Synth.voice_id v <> EmptyString ->
  Synth.voice_matches "male" v = true
  /\ Synth.configured_voice "male" (v :: rest) = Some (Synth.voice_id v).
Proof.
  intros Hname Hid.
  assert (Hm : Synth.voice_matches "male" v = true).
  { unfold Synth.voice_matches, Synth.any_word_in at 2, Synth.male_words.
    cbn [String.eqb Ascii.eqb Bool.eqb andb orb existsb].
    destruct Hname as [H|H].
    - rewrite (has_substring_trans _ "female" "male" H eq_refl). reflexivity.
    - rewrite (has_substring_trans _ "woman" "man" H eq_refl).
      rewrite orb_true_r. reflexivity. }
  split; [exact Hm|].
  apply configured_voice_of_selected; [|exact Hid].
  apply selected_voice_first, Hm.
Qed.

Lemma male_request_takes_female_named_voice_witness :
  Py.has_substring (Py.lower "English Female") "female" = true
  /\ Synth.configured_voice "male"
       [{| Synth.voice_id := "f1"; Synth.voice_name := "English Female" |};
        {| Synth.voice_id := "m1"; Synth.voice_name := "English Male" |}]
     = Some "f1".
Proof.
  split; [reflexivity|].
  apply (male_request_takes_female_named_voice
           {| Synth.voice_id := "f1"; Synth.voice_name := "English Female" |}
           [{| Synth.voice_id := "m1"; Synth.voice_name := "English Male" |}]).
  - left. reflexivity.
  - discriminate.
Defined.

(** ** Further properties: the synthesizer's handlers *)

Lemma mp3_name_endswith request :
  Py.endswith (Synth.mp3_name request) ".mp3" = true.
Proof.
  unfold Synth.mp3_name.
  destruct (Py.endswith (Py.or_else (Synth.filename request)
                           (Synth.job_id request +:+ ".mp3")) ".mp3") eqn:He;
    [exact He | apply endswith_app].
Qed.


(** What a returned response tells about the run: the request was valid,
    one of the two engines produced the audio, and the audio sits under the
    response's filename in the temp directory and in the destination. *)
Lemma generate_speech_success E request d resp s' :
  Synth.generate_speech E request (Synth.start d) = (inr resp, s') ->
  Synth.valid request = true
  /\ exists audio folder,
       let primary :=
         Synth.gtts E (Synth.text request) (Synth.language request) in
       let fname := Synth.r_filename resp in
       ((primary = Some audio /\ fname = Synth.mp3_name request)
        \/ (primary = None
            /\ Synth.pyttsx3 E (Synth.text request) (Synth.voice_type request)
               = Some audio
            /\ fname = Py.replace (Synth.mp3_name request) ".mp3" ".wav"))
       /\ Synth.r_file_path resp = Py.path_join folder fname
       /\ Synth.fs s'
          = <[Py.path_join folder fname := audio]>
              (<[Py.path_join TEMP_FILES_DIR fname := audio]> d)
       /\ Synth.r_download_url resp
          = "/download/" +:+ Synth.job_id request +:+ "/" +:+ fname.
Proof.
  unfold Synth.valid. synth_unfold. fold (Synth.mp3_name request).
  destruct (Synth.voice_ok (Synth.voice_type request)); cbn [negb];
    [|discriminate].
  destruct (Z.of_nat (String.length (Synth.text request)) >? 5000)%Z;
    cbn [negb]; [discriminate|].
  destruct (Py.is_empty (Py.strip (Synth.text request))); cbn [negb];
    [discriminate|].
  synth_simpl.
  destruct (Synth.gtts E (Synth.text request) (Synth.language request))
    as [audio|]; synth_simpl.
  - destruct (Synth.write_output E _ _) as [|[?|]]; synth_simpl;
      try discriminate.
    destruct (Py.truthy (Synth.download_path request)); synth_simpl;
      [|destruct (Synth.default_download_path E); synth_simpl;
        try discriminate].
    all: rewrite lookup_insert_eq.
    all: destruct (Synth.copy2 E _ _) as [|[?|]]; synth_simpl;
      try discriminate.
    all: intros [= <- <-]; split; [reflexivity|].
    all: eexists; eexists;
      cbn [Synth.r_filename Synth.r_file_path Synth.r_download_url Synth.fs].
    all: split; [left; split; reflexivity|]; repeat split; reflexivity.
  - destruct (Synth.pyttsx3 E (Synth.text request) (Synth.voice_type request))
      as [audio|]; synth_simpl; [|discriminate].
    destruct (Synth.write_output E _ _) as [|[?|]]; synth_simpl;
      try discriminate.
    destruct (Py.truthy (Synth.download_path request)); synth_simpl;
      [|destruct (Synth.default_download_path E); synth_simpl;
        try discriminate].
    all: rewrite lookup_insert_eq.
    all: destruct (Synth.copy2 E _ _) as [|[?|]]; synth_simpl;
      try discriminate.
    all: intros [= <- <-]; split; [reflexivity|].
    all: eexists; eexists;
      cbn [Synth.r_filename Synth.r_file_path Synth.r_download_url Synth.fs].
    all: split; [right; repeat split; reflexivity|]; repeat split; reflexivity.
Qed.



Ltac map_kept :=
  repeat (rewrite lookup_insert; case_decide; [eauto|]); eauto.

(** X6.  [generate_speech] never removes a file: whatever path held a file
    before the request holds one after it, on every outcome.  The temp copy
    of the output is among them; no path of the handler deletes it. *)
Theorem generate_speech_never_deletes E request d p :
  is_Some (d !! p) ->
  is_Some (Synth.fs (snd (Synth.generate_speech E request (Synth.start d)))
           !! p).
Proof.
  intros Hp. synth_unfold.
  destruct (negb (Synth.voice_ok (Synth.voice_type request))); synth_simpl;
    [exact Hp|].
  destruct (Z.of_nat (String.length (Synth.text request)) >? 5000)%Z;
    synth_simpl; [exact Hp|].
  destruct (Py.is_empty (Py.strip (Synth.text request))); synth_simpl;
    [exact Hp|].
  repeat (synth_case; synth_simpl).
  all: map_kept.
Qed.

Lemma generate_speech_never_deletes_witness :
  is_Some
    (Synth.fs
       (snd (Synth.generate_speech
               (Sample.synth_env (Some Sample.three_bytes) None)
               (Sample.tts_request "Hello world" "male" (Some "old.mp3"))
               (Synth.start {[ "/app/temp_files/old.mp3" := [x09] ]})))
     !! "/app/temp_files/old.mp3").
Proof.
  apply (generate_speech_never_deletes
           (Sample.synth_env (Some Sample.three_bytes) None)
           (Sample.tts_request "Hello world" "male" (Some "old.mp3"))
           {[ "/app/temp_files/old.mp3" := [x09] ]}
           "/app/temp_files/old.mp3").
  rewrite lookup_singleton_eq. eexists. reflexivity.
Defined.

(** X7.  The primary engine is called exactly for the requests that pass
    the three input checks, it is then the first thing that happens, and it
    is given the text and the language of the request as they came: the
    language is not compared with any list. *)
Theorem primary_engine_called_iff_valid E request d :
  let tr :=
    Synth.trace (snd (Synth.generate_speech E request (Synth.start d))) in
  (existsb Synth.is_primary tr = true <-> Synth.valid request = true)
  /\ (Synth.valid request = false -> tr = [])
  /\ (Synth.valid request = true ->
      exists rest,
        tr = Synth.Primary (Synth.text request) (Synth.language request)
             :: rest).
Proof.
  intros tr. subst tr. unfold Synth.valid. synth_unfold.
  destruct (Synth.voice_ok (Synth.voice_type request)); cbn [negb andb];
    synth_simpl;
    [|split; [split; discriminate | split; [reflexivity | discriminate]]].
  destruct (Z.of_nat (String.length (Synth.text request)) >? 5000)%Z;
    cbn [negb andb]; synth_simpl;
    [split; [split; discriminate | split; [reflexivity | discriminate]]|].
  destruct (Py.is_empty (Py.strip (Synth.text request))); cbn [negb andb];
    synth_simpl;
    [split; [split; discriminate | split; [reflexivity | discriminate]]|].
  repeat (synth_case; synth_simpl).
  all: split; [split; reflexivity|]; split; [discriminate|].
  all: intros _; eexists; reflexivity.
Qed.

(** X8.  When the primary engine delivers, the fallback engine is not
    called, and every response returned carries the requested name with
    ".mp3" at its end (the job id plus ".mp3" when no name was asked for). *)
Theorem primary_success_keeps_mp3_name E request d audio :
  Synth.valid request = true ->
  Synth.gtts E (Synth.text request) (Synth.language request) = Some audio ->
  let out := Synth.generate_speech E request (Synth.start d) in
  existsb Synth.is_fallback (Synth.trace (snd out)) = false
  /\ (forall resp,
        fst out = inr resp ->
        Synth.r_filename resp = Synth.mp3_name request
        /\ Py.endswith (Synth.r_filename resp) ".mp3" = true
        /\ Synth.r_download_url resp
           = "/download/" +:+ Synth.job_id request +:+ "/"
             +:+ Synth.mp3_name request).
Proof.
  intros Hv Hg out. subst out.
  destruct (valid_inv _ Hv) as (Hvoice & Hlen & Hstrip).
  pose proof (mp3_name_endswith request) as Hmp3.
  synth_unfold. fold (Synth.mp3_name request).
  rewrite Hvoice, Hlen, Hstrip, Hg. synth_simpl.
  repeat (synth_case; synth_simpl).
  all: split; [reflexivity|].
  all: intros resp Hr; try discriminate Hr.
  all: injection Hr as <-; cbn [Synth.r_filename Synth.r_download_url].
  all: split; [reflexivity|]; split; [exact Hmp3 | reflexivity].
Qed.

Lemma primary_success_keeps_mp3_name_witness :
  Synth.valid (Sample.tts_request "Hello world" "male" None) = true
  /\ existsb Synth.is_fallback
       (Synth.trace
          (snd (Synth.generate_speech
                  (Sample.synth_env (Some Sample.three_bytes) None)
                  (Sample.tts_request "Hello world" "male" None)
                  (Synth.start ∅)))) = false
  /\ Synth.mp3_name (Sample.tts_request "Hello world" "male" None)
     = Sample.uuid +:+ ".mp3".
Proof.
  split; [reflexivity|]. split; [|reflexivity].
  exact (proj1 (primary_success_keeps_mp3_name
                  (Sample.synth_env (Some Sample.three_bytes) None)
                  (Sample.tts_request "Hello world" "male" None)
                  ∅ Sample.three_bytes eq_refl eq_refl)).
Defined.

Lemma startswith_slash_app f suffix :
  f <> EmptyString ->
  Py.startswith (f +:+ suffix) "/" = Py.startswith f "/".
Proof.
  destruct f as [|c f]; [congruence|]. intros _.
  cbn [String.append Py.startswith]. reflexivity.
Qed.

(** X9.  Where the output is written.  For a valid request with a
    non-empty filename, served by the primary engine, the file is written
    to [/app/temp_files/] followed by the name when the name does not start
    with "/", and to the name itself when it does: an absolute filename
    leaves the temp directory. *)
Theorem output_path_of_filename E request d f audio :
  Synth.valid request = true ->
  Synth.filename request = Some f ->
  f <> EmptyString ->
  Synth.gtts E (Synth.text request) (Synth.language request) = Some audio ->
  let name := if Py.endswith f ".mp3" then f else f +:+ ".mp3" in
  let path := if Py.startswith f "/" then name else "/app/temp_files/" +:+ name in
  exists rest,
    Synth.trace (snd (Synth.generate_speech E request (Synth.start d)))
    = Synth.Primary (Synth.text request) (Synth.language request)
      :: Synth.SaveOutput path audio :: rest.
Proof.
  intros Hv Hf Hne Hg name path.
  destruct (valid_inv _ Hv) as (Hvoice & Hlen & Hstrip).
  assert (Hname : Synth.mp3_name request = name).
  { unfold Synth.mp3_name. rewrite Hf.
    destruct f; [congruence | reflexivity]. }
  assert (Hpath : Py.path_join TEMP_FILES_DIR name = path).
  { subst path. unfold Py.path_join.
    assert (Hs : Py.startswith name "/" = Py.startswith f "/").
    { subst name. destruct (Py.endswith f ".mp3"); [reflexivity|].
      apply startswith_slash_app, Hne. }
    rewrite Hs. destruct (Py.startswith f "/"); reflexivity. }
  synth_unfold. fold (Synth.mp3_name request).
  rewrite Hvoice, Hlen, Hstrip, Hg, Hname. synth_simpl.
  rewrite ?Hpath.
  repeat (synth_case; synth_simpl).
  all: rewrite ?Hpath; eexists; reflexivity.
Qed.

Lemma output_path_of_filename_witness :
  Synth.valid (Sample.tts_request "Hello world" "male" (Some "/srv/www/index"))
  = true
  /\ exists rest,
       Synth.trace
         (snd (Synth.generate_speech
                 (Sample.synth_env (Some Sample.three_bytes) None)
                 (Sample.tts_request "Hello world" "male"
                    (Some "/srv/www/index"))
                 (Synth.start ∅)))
       = Synth.Primary "Hello world" "en"
         :: Synth.SaveOutput "/srv/www/index.mp3" Sample.three_bytes :: rest.
Proof.
  split; [reflexivity|].
  refine (output_path_of_filename
            (Sample.synth_env (Some Sample.three_bytes) None)
            (Sample.tts_request "Hello world" "male" (Some "/srv/www/index"))
            ∅ "/srv/www/index" Sample.three_bytes eq_refl eq_refl _ eq_refl).
  discriminate.
Defined.

(** X10.  What [/supported-languages] advertises is what [/generate-speech]
    enforces: a voice type passes the voice check exactly when it is in the
    advertised list, and a request with a valid voice type is rejected as
    too long exactly when its text has more characters than the advertised
    maximum, so a text of exactly that many characters is not. *)
Theorem advertised_limits_are_enforced :
  (forall v,
     In v (Synth.voice_types Synth.get_supported_languages)
     <-> Synth.voice_ok v = true)
  /\ (forall E request s,
        Synth.voice_ok (Synth.voice_type request) = true ->
        (fst (Synth.generate_speech E request s)
         = inl (HTTPException 500
                  (Fmt "Speech generation failed: "
                     (HTTPException 400
                        (Lit "Text is too long (max 5000 characters)"))))
         <-> (Z.of_nat (String.length (Synth.text request))
              > Synth.max_text_length Synth.get_supported_languages)%Z)).
Proof.
  split.
  - intros v. unfold Synth.voice_ok.
    cbn [Synth.voice_types Synth.get_supported_languages In].
    rewrite orb_true_iff, !String.eqb_eq. intuition congruence.
  - intros E request s Hv.
    cbn [Synth.max_text_length Synth.get_supported_languages]. split.
    + intros Hout.
      destruct (Z.gtb_spec
                  (Z.of_nat (String.length (Synth.text request))) 5000)
        as [Hgt | Hle]; [lia|]. exfalso.
      destruct (Py.all_space (Synth.text request)) eqn:Hs.
      * rewrite generate_speech_empty in Hout by assumption.
        discriminate Hout.
      * apply (generate_speech_valid E request s) with (code := 400%Z)
          (detail := Lit "Text is too long (max 5000 characters)");
          [|exact Hout].
        unfold Synth.valid. rewrite Hv, strip_empty, Hs.
        destruct (Z.gtb_spec
                    (Z.of_nat (String.length (Synth.text request))) 5000);
          [lia | reflexivity].
    + intros Hgt. rewrite generate_speech_too_long by assumption.
      reflexivity.
Qed.

Lemma advertised_limits_are_enforced_witness :
  Synth.voice_ok "male" = true
  /\ ~ (Z.of_nat (String.length (Sample.letters 5000))
        > Synth.max_text_length Synth.get_supported_languages)%Z
  /\ fst (Synth.generate_speech
            (Sample.synth_env (Some Sample.three_bytes) None)
            (Sample.tts_request (Sample.letters 5000) "male" None)
            (Synth.start ∅))
     <> inl (HTTPException 500
               (Fmt "Speech generation failed: "
                  (HTTPException 400
                     (Lit "Text is too long (max 5000 characters)")))).
Proof.
  assert (Hlen : ~ (Z.of_nat (String.length (Sample.letters 5000))
                    > Synth.max_text_length Synth.get_supported_languages)%Z)
    by (vm_compute; intros H; discriminate H).
  split; [reflexivity|]. split; [exact Hlen|].
  intros Hout. apply Hlen.
  exact (proj1 (proj2 advertised_limits_are_enforced
                  (Sample.synth_env (Some Sample.three_bytes) None)
                  (Sample.tts_request (Sample.letters 5000) "male" None)
                  (Synth.start ∅) eq_refl) Hout).
Defined.

(** ** Further properties: the media processor *)

Lemma lower_char_idem c : Py.lower_char (Py.lower_char c) = Py.lower_char c.
Proof. destruct c as [[] [] [] [] [] [] [] []]; reflexivity. Qed.

Lemma lower_idem s : Py.lower (Py.lower s) = Py.lower s.
Proof.
  induction s as [|c s IH]; cbn [Py.lower]; [reflexivity|].
  rewrite lower_char_idem, IH. reflexivity.
Qed.

(** X11.  Letter case plays no part in the classification: a filename and
    its lowercased form have the same extension and are classified alike. *)
Theorem classification_ignores_case filename :
  Processor.file_extension (Py.lower filename)
  = Processor.file_extension filename
  /\ Processor.is_video (Py.lower filename) = Processor.is_video filename.
Proof.
  assert (H : Processor.file_extension (Py.lower filename)
              = Processor.file_extension filename).
  { unfold Processor.file_extension.
    rewrite contains_dot_lower, lower_idem. reflexivity. }
  split; [exact H|]. unfold Processor.is_video. rewrite H. reflexivity.
Qed.

(** X12.  A filename without a dot, and a filename that ends in a dot, have
    the empty extension and are never transcoded, whatever their letters:
    a file named just "mp4" is treated as audio. *)
Theorem dotless_names_are_not_video :
  (forall filename,
     Py.contains "." filename = false ->
     Processor.file_extension filename = EmptyString
     /\ Processor.is_video filename = false)
  /\ (forall stem,
        Processor.file_extension (stem +:+ ".") = EmptyString
        /\ Processor.is_video (stem +:+ ".") = false).
Proof.
  split.
  - intros filename H. unfold Processor.is_video.
    rewrite (file_extension_no_dot _ H). split; reflexivity.
  - intros stem. unfold Processor.is_video.
    change (stem +:+ ".") with (stem +:+ "." +:+ EmptyString).
    rewrite file_extension_last_dot by reflexivity. split; reflexivity.
Qed.

Lemma dotless_names_are_not_video_witness :
  Py.contains "." "mp4" = false
  /\ Processor.is_video "mp4" = false
  /\ Processor.is_video "holiday.mp4." = false.
Proof.
  split; [reflexivity|]. split.
  - exact (proj2 (proj1 dotless_names_are_not_video "mp4" eq_refl)).
  - exact (proj2 (proj2 dotless_names_are_not_video "holiday.mp4")).
Defined.

(** X13.  What [/supported-formats] advertises matches what
    [/process-media] does: a filename whose last extension, in any letter
    case, is an advertised video format is transcoded, and one whose last
    extension is an advertised audio format is not. *)
Theorem advertised_formats_match_classification stem ext :
  (In (Py.lower ext) (Processor.video_formats Processor.get_supported_formats)
   -> Processor.is_video (stem +:+ "." +:+ ext) = true)
  /\ (In (Py.lower ext)
        (Processor.audio_formats Processor.get_supported_formats)
      -> Processor.is_video (stem +:+ "." +:+ ext) = false).
Proof.
  assert (Hdot : forall fmt, Py.lower ext = fmt ->
                 Py.contains "." fmt = false -> Py.contains "." ext = false).
  { intros fmt <-. rewrite contains_dot_lower. trivial. }
  unfold Processor.is_video.
  cbn [Processor.video_formats Processor.audio_formats
       Processor.get_supported_formats In].
  split; intros H.
  all: repeat (destruct H as [H|H];
               [rewrite (file_extension_last_dot stem ext
                           (Hdot _ (eq_sym H) eq_refl)), <- H;
                reflexivity|]).
  all: contradiction.
Qed.

Lemma advertised_formats_match_classification_witness :
  In (Py.lower "MKV") (Processor.video_formats Processor.get_supported_formats)
  /\ Processor.is_video "Lecture.2024.MKV" = true
  /\ In (Py.lower "Flac")
       (Processor.audio_formats Processor.get_supported_formats)
  /\ Processor.is_video "take.mp4.Flac" = false.
Proof.
  assert (Hv : In (Py.lower "MKV")
                 (Processor.video_formats Processor.get_supported_formats))
    by (do 3 right; left; reflexivity).
  assert (Ha : In (Py.lower "Flac")
                 (Processor.audio_formats Processor.get_supported_formats))
    by (do 2 right; left; reflexivity).
  split; [exact Hv|]. split; [|split; [exact Ha|]].
  - exact (proj1 (advertised_formats_match_classification
                    "Lecture.2024" "MKV") Hv).
  - exact (proj2 (advertised_formats_match_classification
                    "take.mp4" "Flac") Ha).
Defined.

(** X14.  The order of the processor's external steps is fixed and none is
    repeated: a request does nothing, or saves the upload, or saves, probes
    and then either transcribes the upload, or transcodes, or transcodes
    and transcribes the transcoded file.  In particular the model is never
    run twice and never run on a file that failed to transcode. *)
Theorem process_media_step_order E file job filename d :
  let content := Processor.upload_content file in
  let p_in := Py.path_join TEMP_FILES_DIR (job +:+ "_" +:+ filename) in
  let p_out := Py.path_join TEMP_FILES_DIR (job +:+ "_audio.mp3") in
  let tr :=
    Processor.trace
      (snd (Processor.process_media E file job filename (Processor.start d))) in
  tr = []
  \/ tr = [Processor.SaveUpload p_in content]
  \/ (exists audio,
        tr = [Processor.SaveUpload p_in content; Processor.Probe p_in;
              Processor.Transcribe p_in audio])
  \/ (tr = [Processor.SaveUpload p_in content; Processor.Probe p_in;
            Processor.Transcode p_in p_out]
      /\ Processor.exit_ok
           (Processor.ffmpeg E p_in (Some content) p_out) = false)
  \/ (exists audio,
        tr = [Processor.SaveUpload p_in content; Processor.Probe p_in;
              Processor.Transcode p_in p_out;
              Processor.Transcribe p_out audio]).
Proof.
  intros content p_in p_out tr. subst tr. proc_unfold.
  fold content. fold p_in. fold p_out.
  destruct (Py.len content >? 150 * 1024 * 1024)%Z; proc_simpl;
    [left; reflexivity|].
  destruct (Processor.write_upload E p_in content) as [|lost]; proc_simpl.
  - rewrite !lookup_insert_eq.
    destruct (Processor.str_in (Processor.file_extension filename)
                Processor.video_extensions); proc_simpl.
    + rewrite !lookup_insert_eq.
      destruct (Processor.ffmpeg E p_in (Some content) p_out) as [[] [a|]];
        proc_simpl; repeat (proc_case; proc_simpl); proc_cleanup.
      all: first
        [ do 4 right; eexists; reflexivity
        | do 3 right; left; split; reflexivity ].
    + repeat (proc_case; proc_simpl); proc_cleanup.
      all: do 2 right; left; eexists; reflexivity.
  - destruct lost; proc_simpl; proc_cleanup; right; left; reflexivity.
Qed.

(** X15.  A result is returned only when every step went through: the
    upload is within the limit and was saved, a video upload was transcoded
    with exit status 0, and the transcription in the result is what the
    model returned for the file it was run on, the saved upload or, for a
    video, the transcoded file.  The reported size is the length of the
    upload. *)
Theorem process_media_result_means_all_steps_passed
    E file job filename d res s' :
  let content := Processor.upload_content file in
  let p_in := Py.path_join TEMP_FILES_DIR (job +:+ "_" +:+ filename) in
  let p_out := Py.path_join TEMP_FILES_DIR (job +:+ "_audio.mp3") in
  Processor.process_media E file job filename (Processor.start d)
  = (inr res, s') ->
  (Py.len content <= MAX_UPLOAD)%Z
  /\ Processor.write_upload E p_in content = Written
  /\ Processor.r_file_size res = Py.len content
  /\ Processor.r_status res = "completed"
  /\ (Processor.is_video filename = true ->
      Processor.exit_ok (Processor.ffmpeg E p_in (Some content) p_out) = true
      /\ exists audio,
           Processor.whisper E p_out audio
           = Some (Processor.r_transcription res))
  /\ (Processor.is_video filename = false ->
      Processor.whisper E p_in (Some content)
      = Some (Processor.r_transcription res)).
Proof.
  intros content p_in p_out. unfold Processor.is_video. proc_unfold.
  change (150 * 1024 * 1024)%Z with MAX_UPLOAD.
  fold content. fold p_in. fold p_out.
  destruct (Z.gtb_spec (Py.len content) MAX_UPLOAD) as [Hgt|Hle]; proc_simpl;
    [discriminate|].
  destruct (Processor.write_upload E p_in content) as [|lost]; proc_simpl;
    [|destruct lost; proc_simpl; proc_cleanup; discriminate].
  rewrite !lookup_insert_eq.
  destruct (Processor.str_in (Processor.file_extension filename)
              Processor.video_extensions); proc_simpl.
  - rewrite !lookup_insert_eq.
    destruct (Processor.ffmpeg E p_in (Some content) p_out) as [[] [a|]];
      proc_simpl.
    all: match goal with
         | |- context [Processor.whisper ?E ?a ?b] =>
             destruct (Processor.whisper E a b) eqn:Hw
         | _ => idtac
         end; proc_simpl; proc_cleanup.
    all: intros H; try discriminate H.
    all: injection H as <- _.
    all: cbn [Processor.r_file_size Processor.r_status
              Processor.r_transcription].
    all: repeat split; try reflexivity; try assumption; try discriminate.
    all: eexists; exact Hw.
  - rewrite !lookup_insert_eq.
    destruct (Processor.whisper E p_in (Some content)) eqn:Hw;
      proc_simpl; proc_cleanup.
    all: intros H; try discriminate H.
    injection H as <- _.
    cbn [Processor.r_file_size Processor.r_status Processor.r_transcription].
    repeat split; try reflexivity; try assumption; try discriminate.
Qed.

Lemma process_media_result_means_all_steps_passed_witness :
  Processor.process_media
    (Sample.processor_env
       {| Processor.exit_ok := true; Processor.output := Some [x04; x05] |}
       (Some Sample.heard))
    (Sample.media Sample.three_bytes) "j1" "talk.wav" (Processor.start ∅)
  = (inr {| Processor.r_job_id := "j1";
            Processor.r_filename := "talk.wav";
            Processor.r_file_size := 3;
            Processor.r_file_info := Processor.NoInfo;
            Processor.r_transcription := Sample.heard;
            Processor.r_status := "completed";
            Processor.r_processed_at := "2025-01-01T00:00:00" |},
     {| Processor.fs := delete "/app/temp_files/j1_talk.wav"
                          (<["/app/temp_files/j1_talk.wav" :=
                               Sample.three_bytes]> ∅);
        Processor.trace :=
          [Processor.SaveUpload "/app/temp_files/j1_talk.wav"
             Sample.three_bytes;
           Processor.Probe "/app/temp_files/j1_talk.wav";
           Processor.Transcribe "/app/temp_files/j1_talk.wav"
             (Some Sample.three_bytes)];
        Processor.temp_input_path := Some "/app/temp_files/j1_talk.wav";
        Processor.temp_audio_path := None |})
  /\ Processor.whisper
       (Sample.processor_env
          {| Processor.exit_ok := true; Processor.output := Some [x04; x05] |}
          (Some Sample.heard))
       "/app/temp_files/j1_talk.wav" (Some Sample.three_bytes)
     = Some Sample.heard.
Proof.
  assert (Hrun :
    Processor.process_media
      (Sample.processor_env
         {| Processor.exit_ok := true; Processor.output := Some [x04; x05] |}
         (Some Sample.heard))
      (Sample.media Sample.three_bytes) "j1" "talk.wav" (Processor.start ∅)
    = (inr {| Processor.r_job_id := "j1";
              Processor.r_filename := "talk.wav";
              Processor.r_file_size := 3;
              Processor.r_file_info := Processor.NoInfo;
              Processor.r_transcription := Sample.heard;
              Processor.r_status := "completed";
              Processor.r_processed_at := "2025-01-01T00:00:00" |},
       {| Processor.fs := delete "/app/temp_files/j1_talk.wav"
                            (<["/app/temp_files/j1_talk.wav" :=
                                 Sample.three_bytes]> ∅);
          Processor.trace :=
            [Processor.SaveUpload "/app/temp_files/j1_talk.wav"
               Sample.three_bytes;
             Processor.Probe "/app/temp_files/j1_talk.wav";
             Processor.Transcribe "/app/temp_files/j1_talk.wav"
               (Some Sample.three_bytes)];
          Processor.temp_input_path := Some "/app/temp_files/j1_talk.wav";
          Processor.temp_audio_path := None |})).
  { proc_unfold. reflexivity. }
  split; [exact Hrun|].
  exact (proj2 (proj2 (proj2 (proj2 (proj2
           (process_media_result_means_all_steps_passed _ _ _ _ _ _ _ Hrun)))))
           eq_refl).
Defined.

(** ** Further properties: the gateway *)

Ltac gw_size_ok content :=
  change (150 * 1024 * 1024)%Z with MAX_UPLOAD;
  destruct (Z.gtb_spec (Py.len content) MAX_UPLOAD); [lia|].

(** The text intake never touches the temp directory. *)
Lemma text_to_audio_keeps_files E request s :
  Gateway.fs (snd (Gateway.text_to_audio E request s)) = Gateway.fs s.
Proof.
  gw_unfold.
  destruct (negb _); gw_simpl; [reflexivity|].
  repeat (gw_case; gw_simpl); reflexivity.
Qed.

(** X16.  A returned media response names a file that is gone: the path in
    [file_upload] is the temp file the handler wrote and removed before
    answering, so it is absent from the temp directory the handler leaves
    behind.  The response carries the job id, the name used, and the fixed
    status "completed". *)
Theorem media_response_names_removed_file E file d resp s' :
  Gateway.media_to_text E file (Gateway.start d) = (inr resp, s') ->
  Gateway.fs s' !! Gateway.m_file_upload resp = None
  /\ Gateway.m_file_upload resp
     = Py.path_join TEMP_FILES_DIR
         (Gateway.m_id resp +:+ "_" +:+ Gateway.m_filename resp)
  /\ Gateway.m_id resp = Gateway.uuid4 E
  /\ Gateway.m_status resp = "completed".
Proof.
  gw_unfold.
  destruct (Py.len (Gateway.upload_content file) >? 150 * 1024 * 1024)%Z;
    gw_simpl; [discriminate|].
  destruct (Gateway.write_temp E _ _) as [|lost]; gw_simpl;
    [|discriminate].
  destruct (Gateway.post_process_media E _ _ _) as [[code ok]|]; gw_simpl;
    [|discriminate].
  rewrite lookup_insert_eq. gw_simpl.
  destruct (code =? 200)%Z; gw_simpl; [|discriminate].
  destruct ok; gw_simpl; [|discriminate].
  intros [= <- <-].
  cbn [Gateway.fs Gateway.m_file_upload Gateway.m_id Gateway.m_filename
       Gateway.m_status].
  split; [apply lookup_delete_eq|]. repeat split; reflexivity.
Qed.

Lemma media_response_names_removed_file_witness :
  Gateway.fs
    (snd (Gateway.media_to_text
            (Sample.gateway_env (Some Sample.ok_200) None)
            (Sample.upload "a.mp3" Sample.three_bytes) (Gateway.start ∅)))
  !! "/app/temp_files/123e4567-e89b-42d3-a456-426614174000_a.mp3" = None.
Proof.
  destruct (Gateway.media_to_text
              (Sample.gateway_env (Some Sample.ok_200) None)
              (Sample.upload "a.mp3" Sample.three_bytes) (Gateway.start ∅))
    as [[e|resp] s'] eqn:Hrun; [vm_compute in Hrun; discriminate Hrun|].
  pose proof (proj1 (media_response_names_removed_file _ _ _ _ _ Hrun)) as H.
  assert (Hpath : Gateway.m_file_upload resp
                  = "/app/temp_files/123e4567-e89b-42d3-a456-426614174000_a.mp3").
  { vm_compute in Hrun. injection Hrun as <- _. reflexivity. }
  rewrite Hpath in H. exact H.
Defined.

(** X17.  The download link of a text response does not resolve by itself:
    the response points to [/api/v1/download/<id>], the download endpoint
    looks for [<id>.mp3] in the gateway's temp directory, and the text
    intake writes nothing there.  Unless such a file was there before the
    request, the download fails, with status 500 and "File not found"
    inside the detail. *)
Theorem audio_url_does_not_resolve E request d resp s' :
  Gateway.text_to_audio E request (Gateway.start d) = (inr resp, s') ->
  d !! Py.path_join TEMP_FILES_DIR (Gateway.t_id resp +:+ ".mp3") = None ->
  Gateway.t_audio_url resp = "/api/v1/download/" +:+ Gateway.t_id resp
  /\ Gateway.download_file (Gateway.t_id resp) s'
     = (inl (HTTPException 500
               (Fmt "Internal server error: "
                  (HTTPException 404 (Lit "File not found")))),
        s').
Proof.
  intros Hrun Hnone.
  assert (Hfs : Gateway.fs s' = d).
  { pose proof (text_to_audio_keeps_files E request (Gateway.start d)) as H.
    rewrite Hrun in H. exact H. }
  split.
  - revert Hrun. gw_unfold.
    destruct (negb _); gw_simpl; [discriminate|].
    repeat (gw_case; gw_simpl); intros H; try discriminate H.
    injection H as <- _. reflexivity.
  - unfold Gateway.download_file. run_m. rewrite Hfs, Hnone. reflexivity.
Qed.

Lemma audio_url_does_not_resolve_witness :
  status_of
    (fst (Gateway.download_file Sample.uuid
            (snd (Gateway.text_to_audio
                    (Sample.gateway_env None (Some Sample.ok_200))
                    (Sample.text_request "Hello world" "male" None)
                    (Gateway.start ∅)))))
  = 500%Z.
Proof.
  destruct (Gateway.text_to_audio
              (Sample.gateway_env None (Some Sample.ok_200))
              (Sample.text_request "Hello world" "male" None)
              (Gateway.start ∅)) as [[e|resp] s'] eqn:Hrun;
    [vm_compute in Hrun; discriminate Hrun|].
  assert (Hid : Gateway.t_id resp = Sample.uuid)
    by (vm_compute in Hrun; injection Hrun as <- _; reflexivity).
  pose proof (proj2 (audio_url_does_not_resolve _ _ _ _ _ Hrun
                       (lookup_empty _))) as H.
  rewrite Hid in H. cbn [snd]. rewrite H. reflexivity.
Defined.

(** X18.  The status of a failing downstream call is not passed on.  When
    the media processor, or the text-to-speech service, answers with a
    status other than 200, the gateway answers 500; the downstream status
    survives only inside the detail. *)
Theorem downstream_status_is_replaced_by_500 :
  (forall E file d r,
     let job_id := Gateway.uuid4 E in
     let content := Gateway.upload_content file in
     let name :=
       Py.or_else (Gateway.upload_filename file)
                  ("audio_" +:+ Py.take 8 job_id +:+ ".mp3") in
     let path := Py.path_join TEMP_FILES_DIR (job_id +:+ "_" +:+ name) in
     (Py.len content <= MAX_UPLOAD)%Z ->
     Gateway.write_temp E path content = Written ->
     Gateway.post_process_media E job_id name content = Some r ->
     Gateway.status_code r <> 200%Z ->
     fst (Gateway.media_to_text E file (Gateway.start d))
     = inl (HTTPException 500
              (Fmt "Internal server error: "
                 (HTTPException (Gateway.status_code r)
                    (Lit "Media processing failed")))))
  /\ (forall E request d r,
        Gateway.voice_type request = "male"
        \/ Gateway.voice_type request = "female" ->
        Gateway.post_generate_speech E (Gateway.uuid4 E)
          (Gateway.text request) (Gateway.voice_type request)
          (Gateway.output_filename E (Gateway.filename request)) = Some r ->
        Gateway.status_code r <> 200%Z ->
        fst (Gateway.text_to_audio E request (Gateway.start d))
        = inl (HTTPException 500
                 (Fmt "Internal server error: "
                    (HTTPException (Gateway.status_code r)
                       (Lit "Text-to-speech generation failed"))))).
Proof.
  split.
  - intros E file d r job_id content name path Hlen Hw Hp Hcode.
    gw_unfold. fold job_id. fold content. fold name. fold path.
    gw_size_ok content.
    rewrite Hw, Hp. gw_simpl. rewrite lookup_insert_eq.
    apply Z.eqb_neq in Hcode. rewrite Hcode. reflexivity.
  - intros E request d r Hvoice Hp Hcode. gw_unfold.
    assert (Hv : String.eqb (Gateway.voice_type request) "male"
                 || String.eqb (Gateway.voice_type request) "female" = true)
      by (destruct Hvoice as [-> | ->]; reflexivity).
    rewrite Hv, Hp. gw_simpl.
    apply Z.eqb_neq in Hcode. rewrite Hcode. reflexivity.
Qed.

Lemma downstream_status_is_replaced_by_500_witness :
  status_of
    (fst (Gateway.media_to_text
            (Sample.gateway_env
               (Some {| Gateway.status_code := 413; Gateway.json_ok := true |})
               None)
            (Sample.upload "a.mp3" Sample.three_bytes) (Gateway.start ∅)))
  = 500%Z
  /\ status_of
       (fst (Gateway.text_to_audio
               (Sample.gateway_env
                  None
                  (Some {| Gateway.status_code := 503;
                           Gateway.json_ok := true |}))
               (Sample.text_request "Hello world" "male" None)
               (Gateway.start ∅)))
     = 500%Z.
Proof.
  split.
  - rewrite (proj1 downstream_status_is_replaced_by_500
               (Sample.gateway_env
                  (Some {| Gateway.status_code := 413;
                           Gateway.json_ok := true |}) None)
               (Sample.upload "a.mp3" Sample.three_bytes) ∅
               {| Gateway.status_code := 413; Gateway.json_ok := true |});
      [reflexivity | vm_compute; discriminate | reflexivity | reflexivity
      | discriminate].
  - rewrite (proj2 downstream_status_is_replaced_by_500
               (Sample.gateway_env
                  None
                  (Some {| Gateway.status_code := 503;
                           Gateway.json_ok := true |}))
               (Sample.text_request "Hello world" "male" None) ∅
               {| Gateway.status_code := 503; Gateway.json_ok := true |});
      [reflexivity | left; reflexivity | reflexivity | discriminate].
Defined.

(** X19.  Every answer of the six request handlers has status 200 or 500:
    each handler turns whatever is raised inside it, its own 400, 404 and
    413 included, into a 500. *)
Theorem handlers_answer_200_or_500 :
  (forall E file s,
     let c := status_of (fst (Gateway.media_to_text E file s)) in
     c = 200%Z \/ c = 500%Z)
  /\ (forall E request s,
        let c := status_of (fst (Gateway.text_to_audio E request s)) in
        c = 200%Z \/ c = 500%Z)
  /\ (forall job s,
        let c := status_of (fst (Gateway.download_file job s)) in
        c = 200%Z \/ c = 500%Z)
  /\ (forall E file job filename d,
        let c :=
          status_of (fst (Processor.process_media E file job filename
                            (Processor.start d))) in
        c = 200%Z \/ c = 500%Z)
  /\ (forall E request s,
        let c := status_of (fst (Synth.generate_speech E request s)) in
        c = 200%Z \/ c = 500%Z)
  /\ (forall job fname s,
        let c := status_of (fst (Synth.download_file job fname s)) in
        c = 200%Z \/ c = 500%Z).
Proof.
  split; [|split; [|split; [|split; [|split]]]].
  - intros E file s. gw_unfold.
    destruct (_ >? _)%Z; gw_simpl; [right; reflexivity|].
    repeat (gw_case; gw_simpl); first [left; reflexivity | right; reflexivity].
  - intros E request s. gw_unfold.
    destruct (negb _); gw_simpl; [right; reflexivity|].
    repeat (gw_case; gw_simpl); first [left; reflexivity | right; reflexivity].
  - intros job s. unfold Gateway.download_file. run_m.
    destruct (_ !! _); [left | right]; reflexivity.
  - intros E file job filename d. proc_unfold.
    destruct (_ >? _)%Z; proc_simpl; [right; reflexivity|].
    repeat (proc_case; proc_simpl).
    all: proc_cleanup.
    all: try destruct lost; proc_simpl; proc_cleanup.
    all: first [left; reflexivity | right; reflexivity].
  - intros E request s. synth_unfold.
    destruct (negb _); synth_simpl; [right; reflexivity|].
    destruct (_ >? _)%Z; synth_simpl; [right; reflexivity|].
    destruct (Py.is_empty _); synth_simpl; [right; reflexivity|].
    repeat (synth_case; synth_simpl).
    all: first [left; reflexivity | right; reflexivity].
  - intros job fname s. unfold Synth.download_file. run_m.
    destruct (_ !! _); [left | right]; reflexivity.
Qed.

(** X20.  The text intake hands every request with a valid voice type to the
    text-to-speech service exactly once, with the text and the voice type as
    they came and under the filename it will report; it checks neither the
    length nor the emptiness of the text; and on no path does it change the
    temp directory. *)
Theorem text_intake_forwards_once E request d :
  let out := Gateway.text_to_audio E request (Gateway.start d) in
  Gateway.fs (snd out) = d
  /\ (Gateway.voice_type request = "male"
      \/ Gateway.voice_type request = "female" ->
      Gateway.trace (snd out)
      = [Gateway.PostGenerateSpeech (Gateway.uuid4 E) (Gateway.text request)
           (Gateway.voice_type request)
           (Gateway.output_filename E (Gateway.filename request))]
      /\ (forall resp,
            fst out = inr resp ->
            Gateway.t_filename resp
            = Gateway.output_filename E (Gateway.filename request))).
Proof.
  intros out. subst out. split.
  - apply (text_to_audio_keeps_files E request (Gateway.start d)).
  - intros Hvoice.
    assert (Hv : String.eqb (Gateway.voice_type request) "male"
                 || String.eqb (Gateway.voice_type request) "female" = true)
      by (destruct Hvoice as [-> | ->]; reflexivity).
    gw_unfold. rewrite Hv. gw_simpl.
    repeat (gw_case; gw_simpl).
    all: split; [reflexivity|].
    all: intros resp H; try discriminate H.
    all: injection H as <-; reflexivity.
Qed.

Lemma text_intake_forwards_once_witness :
  Gateway.trace
    (snd (Gateway.text_to_audio
            (Sample.gateway_env None None)
            (Sample.text_request "" "female" (Some "x"))
            (Gateway.start ∅)))
  = [Gateway.PostGenerateSpeech Sample.uuid "" "female" "x.mp3"].
Proof.
  exact (proj1 (proj2 (text_intake_forwards_once
                         (Sample.gateway_env None None)
                         (Sample.text_request "" "female" (Some "x")) ∅)
                  (or_intror eq_refl))).
Defined.

(** X21.  The media intake forwards an upload exactly when it passed the
    size check and was written to the temp file in full, once, with the
    uploaded bytes unchanged and under the name used for the temp file; an
    upload that could not be written is not forwarded. *)
Theorem media_intake_forwards_saved_upload E file d :
  let job_id := Gateway.uuid4 E in
  let content := Gateway.upload_content file in
  let name :=
    Py.or_else (Gateway.upload_filename file)
               ("audio_" +:+ Py.take 8 job_id +:+ ".mp3") in
  let path := Py.path_join TEMP_FILES_DIR (job_id +:+ "_" +:+ name) in
  let tr :=
    Gateway.trace (snd (Gateway.media_to_text E file (Gateway.start d))) in
  ((Py.len content > MAX_UPLOAD)%Z -> tr = [])
  /\ ((Py.len content <= MAX_UPLOAD)%Z ->
      tr = if match Gateway.write_temp E path content with
              | Written => true
              | WriteFailed _ => false
              end
           then [Gateway.SaveTemp path content;
                 Gateway.PostProcessMedia job_id name content]
           else [Gateway.SaveTemp path content]).
Proof.
  intros job_id content name path tr. subst tr. gw_unfold.
  fold job_id. fold content. fold name. fold path.
  change (150 * 1024 * 1024)%Z with MAX_UPLOAD.
  destruct (Z.gtb_spec (Py.len content) MAX_UPLOAD) as [Hgt|Hle]; gw_simpl.
  - split; [reflexivity | lia].
  - split; [lia|]. intros _.
    destruct (Gateway.write_temp E path content) as [|lost]; gw_simpl;
      [|reflexivity].
    repeat (gw_case; gw_simpl); reflexivity.
Qed.

Lemma media_intake_forwards_saved_upload_witness :
  (Py.len Sample.three_bytes <= MAX_UPLOAD)%Z
  /\ Gateway.trace
       (snd (Gateway.media_to_text
               (Sample.gateway_env None None)
               (Sample.upload "a.mp3" Sample.three_bytes) (Gateway.start ∅)))
     = [Gateway.SaveTemp
          "/app/temp_files/123e4567-e89b-42d3-a456-426614174000_a.mp3"
          Sample.three_bytes;
        Gateway.PostProcessMedia Sample.uuid "a.mp3" Sample.three_bytes].
Proof.
  assert (Hlen : (Py.len Sample.three_bytes <= MAX_UPLOAD)%Z)
    by (vm_compute; discriminate).
  split; [exact Hlen|].
  exact (proj2 (media_intake_forwards_saved_upload
                  (Sample.gateway_env None None)
                  (Sample.upload "a.mp3" Sample.three_bytes) ∅) Hlen).
Defined.

(** X22.  An upload that comes without a filename is given the name
    "audio_" plus the first eight characters of the job id plus ".mp3", and
    the media processor does not transcode a file of that name, whatever
    the job id is. *)
Theorem nameless_upload_is_not_transcoded E file :
  Gateway.upload_filename file = None
  \/ Gateway.upload_filename file = Some EmptyString ->
  let name :=
    Py.or_else (Gateway.upload_filename file)
               ("audio_" +:+ Py.take 8 (Gateway.uuid4 E) +:+ ".mp3") in
  name = "audio_" +:+ Py.take 8 (Gateway.uuid4 E) +:+ ".mp3"
  /\ Processor.file_extension name = "mp3"
  /\ Processor.is_video name = false.
Proof.
  intros Hnone name.
  assert (Hname : name = "audio_" +:+ Py.take 8 (Gateway.uuid4 E) +:+ ".mp3")
    by (subst name; destruct Hnone as [-> | ->]; reflexivity).
  assert (Hext : Processor.file_extension name = "mp3").
  { rewrite Hname.
    change ("audio_" +:+ Py.take 8 (Gateway.uuid4 E) +:+ ".mp3")
      with ("audio_" +:+ (Py.take 8 (Gateway.uuid4 E) +:+ "." +:+ "mp3")).
    rewrite <- append_assoc.
    rewrite file_extension_last_dot by reflexivity. reflexivity. }
  split; [exact Hname|]. split; [exact Hext|].
  unfold Processor.is_video. rewrite Hext. reflexivity.
Qed.

Lemma nameless_upload_is_not_transcoded_witness :
  Processor.is_video
    (Py.or_else None ("audio_" +:+ Py.take 8 "ab.mp4.." +:+ ".mp3"))
  = false.
Proof.
  exact (proj2 (proj2 (nameless_upload_is_not_transcoded
    {| Gateway.uuid4 := "ab.mp4..";
       Gateway.now := "";
       Gateway.random_index := fun i => i;
       Gateway.write_temp := fun _ _ => Written;
       Gateway.post_process_media := fun _ _ _ => None;
       Gateway.post_generate_speech := fun _ _ _ _ => None |}
    {| Gateway.upload_filename := None;
       Gateway.upload_content := [];
       Gateway.upload_content_type := None |}
    (or_introl eq_refl)))).
Defined.

(** ** Further properties: the gateway in front of the synthesizer *)

Lemma endswith_app_l a s suf :
  Py.endswith s suf = true -> Py.endswith (a +:+ s) suf = true.
Proof.
  intros H. destruct (endswith_inv _ _ H) as [p ->].
  rewrite <- append_assoc. apply endswith_app.
Qed.

Lemma path_join_endswith a name suf :
  Py.endswith name suf = true ->
  Py.endswith (Py.path_join a name) suf = true.
Proof.
  intros H. unfold Py.path_join.
  destruct (Py.startswith name "/"); [exact H|].
  destruct (Py.is_empty a || Py.endswith a "/").
  - apply endswith_app_l, H.
  - do 2 apply endswith_app_l. exact H.
Qed.

(** A path that ends in ".mp3" is not a path that ends in ".wav". *)
Lemma mp3_path_is_not_wav_path p q :
  Py.endswith p ".mp3" = true -> Py.endswith q ".wav" = true -> p <> q.
Proof.
  intros Hp Hq ->.
  discriminate (endswith_unique _ ".mp3" ".wav" eq_refl Hp Hq).
Qed.

Lemma output_filename_endswith E requested :
  Py.endswith (Gateway.output_filename E requested) ".mp3" = true.
Proof.
  unfold Gateway.output_filename.
  destruct (negb (Py.truthy requested)); [apply endswith_app|].
  destruct (Py.endswith (Py.or_else requested "") ".mp3") eqn:He;
    [exact He | apply endswith_app].
Qed.

(** The synthesizer keeps a name that already ends in ".mp3". *)
Lemma mp3_name_of_payload job txt voice fname :
  Py.endswith fname ".mp3" = true ->
  Synth.mp3_name (Pipeline.payload job txt voice fname) = fname.
Proof.
  intros H. unfold Synth.mp3_name, Pipeline.payload.
  cbn [Synth.filename Synth.job_id Py.or_else].
  destruct fname as [|c fname]; [discriminate H|].
  cbn [Py.is_empty]. rewrite H. reflexivity.
Qed.

(** The run of a valid request whose primary engine raises, whose fallback
    engine delivers, and whose output is written and copied. *)
Lemma generate_speech_fallback_returns SE request d audio folder :
  Synth.valid request = true ->
  Synth.download_path request = None ->
  Synth.gtts SE (Synth.text request) (Synth.language request) = None ->
  Synth.pyttsx3 SE (Synth.text request) (Synth.voice_type request)
  = Some audio ->
  let fname := Py.replace (Synth.mp3_name request) ".mp3" ".wav" in
  Synth.write_output SE (Py.path_join TEMP_FILES_DIR fname) audio = Written ->
  Synth.default_download_path SE = Some folder ->
  Synth.copy2 SE (Py.path_join TEMP_FILES_DIR fname)
    (Py.path_join folder fname) = Written ->
  Synth.generate_speech SE request (Synth.start d)
  = (inr {| Synth.r_job_id := Synth.job_id request;
            Synth.r_filename := fname;
            Synth.r_file_path := Py.path_join folder fname;
            Synth.r_status := "completed";
            Synth.r_processed_at := Synth.now SE;
            Synth.r_download_url :=
              "/download/" +:+ Synth.job_id request +:+ "/" +:+ fname |},
     {| Synth.fs :=
          <[Py.path_join folder fname := audio]>
            (<[Py.path_join TEMP_FILES_DIR fname := audio]> d);
        Synth.trace :=
          [Synth.Primary (Synth.text request) (Synth.language request);
           Synth.Fallback (Synth.text request) (Synth.voice_type request);
           Synth.SaveOutput (Py.path_join TEMP_FILES_DIR fname) audio;
           Synth.CopyOutput (Py.path_join TEMP_FILES_DIR fname)
             (Py.path_join folder fname)] |}).
Proof.
  intros Hv Hdl Hg Hp fname Hw Hd Hc.
  destruct (valid_inv _ Hv) as (Hvoice & Hlen & Hstrip).
  synth_unfold. fold (Synth.mp3_name request). fold fname.
  rewrite Hvoice, Hlen, Hstrip, Hg, Hp, Hdl. synth_simpl.
  rewrite Hw. synth_simpl. cbn [Py.truthy]. rewrite Hd. synth_simpl.
  rewrite Hc, lookup_insert_eq. synth_simpl. reflexivity.
Qed.

(** X23.  The gateway and the synthesizer disagree on the name after a
    fallback.  Take a gateway whose text intake is served by a synthesizer
    whose primary engine raises, whose fallback engine delivers, and whose
    disk works for this request: the output is written to the temp
    directory, the default download folder resolves, the destination path
    is not the temp path itself, and the copy to it succeeds.  Then both
    answer 200; the gateway's response carries a name ending in ".mp3",
    the synthesizer wrote and reported that name with every ".mp3" turned
    into ".wav", and no file was written under the name the gateway
    reports. *)
Theorem fallback_name_differs_across_services
    GE SE d gd request audio folder :
  Gateway.voice_type request = "male"
  \/ Gateway.voice_type request = "female" ->
  (Z.of_nat (String.length (Gateway.text request)) <= 5000)%Z ->
  Py.all_space (Gateway.text request) = false ->
  Synth.gtts SE (Gateway.text request) "en" = None ->
  Synth.pyttsx3 SE (Gateway.text request) (Gateway.voice_type request)
  = Some audio ->
  let E := Pipeline.gateway_env GE SE d in
  let gname := Gateway.output_filename E (Gateway.filename request) in
  let wname := Py.replace gname ".mp3" ".wav" in
  let sent :=
    Pipeline.payload (Gateway.uuid4 GE) (Gateway.text request)
      (Gateway.voice_type request) gname in
  Synth.write_output SE (Py.path_join TEMP_FILES_DIR wname) audio = Written ->
  Synth.default_download_path SE = Some folder ->
  Py.path_join TEMP_FILES_DIR wname <> Py.path_join folder wname ->
  Synth.copy2 SE (Py.path_join TEMP_FILES_DIR wname)
    (Py.path_join folder wname) = Written ->
  exists gresp gs sresp ss,
    Gateway.text_to_audio E request (Gateway.start gd) = (inr gresp, gs)
    /\ Synth.generate_speech SE sent (Synth.start d) = (inr sresp, ss)
    /\ Gateway.t_filename gresp = gname
    /\ Py.endswith gname ".mp3" = true
    /\ Synth.r_filename sresp = wname
    /\ Py.endswith (Synth.r_filename sresp) ".wav" = true
    /\ Gateway.t_filename gresp <> Synth.r_filename sresp
    /\ Synth.fs ss !! Py.path_join TEMP_FILES_DIR gname
       = d !! Py.path_join TEMP_FILES_DIR gname.
Proof.
  intros Hvoice Hlen Hspace Hg Hp E gname wname sent Hw Hd Hdiff Hc.
  assert (Hmp3 : Py.endswith gname ".mp3" = true)
    by apply output_filename_endswith.
  assert (Hwav : Py.endswith wname ".wav" = true)
    by exact (replace_mp3_endswith_wav _ Hmp3).
  assert (Hvalid : Synth.valid sent = true).
  { unfold Synth.valid, sent, Pipeline.payload, Synth.voice_ok.
    cbn [Synth.voice_type Synth.text]. rewrite strip_empty, Hspace.
    destruct (Z.gtb_spec
                (Z.of_nat (String.length (Gateway.text request))) 5000);
      [lia|].
    destruct Hvoice as [-> | ->]; reflexivity. }
  assert (Hname : Synth.mp3_name sent = gname)
    by (apply mp3_name_of_payload, Hmp3).
  pose proof (generate_speech_fallback_returns SE sent d audio folder
                Hvalid eq_refl Hg Hp) as Hs.
  cbn zeta in Hs. rewrite Hname in Hs. fold wname in Hs.
  specialize (Hs Hw Hd Hc).
  assert (Hv : String.eqb (Gateway.voice_type request) "male"
               || String.eqb (Gateway.voice_type request) "female" = true)
    by (destruct Hvoice as [-> | ->]; reflexivity).
  assert (Hpost :
    Gateway.post_generate_speech E (Gateway.uuid4 E) (Gateway.text request)
      (Gateway.voice_type request) gname
    = Some {| Gateway.status_code := 200; Gateway.json_ok := true |}).
  { unfold E at 1. cbn [Pipeline.gateway_env Gateway.post_generate_speech].
    unfold Pipeline.speech_backend.
    change (Gateway.uuid4 E) with (Gateway.uuid4 GE).
    fold sent. rewrite Hs. reflexivity. }
  eexists _, _, _, _.
  split.
  { gw_unfold. fold gname. rewrite Hv, Hpost. gw_simpl. reflexivity. }
  split; [exact Hs|].
  cbn [Gateway.t_filename Synth.r_filename Synth.fs].
  split; [reflexivity|]. split; [exact Hmp3|].
  split; [reflexivity|]. split; [exact Hwav|].
  split.
  - intros Heq. rewrite Heq in Hmp3.
    discriminate (endswith_unique _ ".mp3" ".wav" eq_refl Hmp3 Hwav).
  - rewrite !lookup_insert_ne; [reflexivity | |].
    + apply not_eq_sym, mp3_path_is_not_wav_path;
        apply path_join_endswith; assumption.
    + apply not_eq_sym, mp3_path_is_not_wav_path;
        apply path_join_endswith; assumption.
Qed.

Lemma fallback_name_differs_across_services_witness :
  "/app/temp_files/greeting.wav" <> "/root/Downloads/greeting.wav"
  /\ exists gresp gs sresp ss,
       Gateway.text_to_audio
         (Pipeline.gateway_env (Sample.gateway_env None None)
            (Sample.synth_env None (Some Sample.three_bytes)) ∅)
         (Sample.text_request "Hello world" "male" (Some "greeting"))
         (Gateway.start ∅) = (inr gresp, gs)
       /\ Synth.generate_speech
            (Sample.synth_env None (Some Sample.three_bytes))
            (Pipeline.payload Sample.uuid "Hello world" "male" "greeting.mp3")
            (Synth.start ∅) = (inr sresp, ss)
       /\ Gateway.t_filename gresp = "greeting.mp3"
       /\ Synth.r_filename sresp = "greeting.wav".
Proof.
  assert (Hdiff : "/app/temp_files/greeting.wav"
                  <> "/root/Downloads/greeting.wav") by discriminate.
  split; [exact Hdiff|].
  destruct (fallback_name_differs_across_services
              (Sample.gateway_env None None)
              (Sample.synth_env None (Some Sample.three_bytes))
              ∅ ∅ (Sample.text_request "Hello world" "male" (Some "greeting"))
              Sample.three_bytes "/root/Downloads")
    as (gresp & gs & sresp & ss & Hg & Hs & Hgn & _ & Hsn & _).
  - left. reflexivity.
  - vm_compute. discriminate.
  - reflexivity.
  - reflexivity.
  - reflexivity.
  - reflexivity.
  - reflexivity.
  - exact Hdiff.
  - reflexivity.
  - exists gresp, gs, sresp, ss.
    split; [exact Hg|]. split; [exact Hs|].
    split; [exact Hgn | exact Hsn].
Defined.

(** ** Further properties: paths and destinations *)

(** X24.  Without a destination there is no answer, and the output stays
    behind: for a valid request that names no download path, when the
    default download folder cannot be resolved the request fails with
    status 500 after the engine has run and the output has been written,
    and the written file is left in the temp directory. *)
Theorem unresolved_destination_is_fatal E request d audio :
  Synth.valid request = true ->
  Synth.download_path request = None ->
  Synth.gtts E (Synth.text request) (Synth.language request) = Some audio ->
  Synth.write_output E
    (Py.path_join TEMP_FILES_DIR (Synth.mp3_name request)) audio = Written ->
  Synth.default_download_path E = None ->
  Synth.generate_speech E request (Synth.start d)
  = (inl (HTTPException 500
            (Fmt "Speech generation failed: " (Raised "Path.mkdir"))),
     {| Synth.fs :=
          <[Py.path_join TEMP_FILES_DIR (Synth.mp3_name request) := audio]> d;
        Synth.trace :=
          [Synth.Primary (Synth.text request) (Synth.language request);
           Synth.SaveOutput
             (Py.path_join TEMP_FILES_DIR (Synth.mp3_name request)) audio] |}).
Proof.
  intros Hv Hdl Hg Hw Hd.
  destruct (valid_inv _ Hv) as (Hvoice & Hlen & Hstrip).
  synth_unfold. fold (Synth.mp3_name request).
  rewrite Hvoice, Hlen, Hstrip, Hg, Hdl. synth_simpl.
  rewrite Hw. synth_simpl. cbn [Py.truthy]. rewrite Hd. reflexivity.
Qed.

Lemma unresolved_destination_is_fatal_witness :
  Synth.fs
    (snd (Synth.generate_speech
            {| Synth.now := "2025-01-01T00:00:00";
               Synth.gtts := fun _ _ => Some Sample.three_bytes;
               Synth.pyttsx3 := fun _ _ => None;
               Synth.write_output := fun _ _ => Written;
               Synth.default_download_path := None;
               Synth.copy2 := fun _ _ => Written |}
            (Sample.tts_request "Hello world" "male" (Some "hi.mp3"))
            (Synth.start ∅)))
  !! "/app/temp_files/hi.mp3" = Some Sample.three_bytes.
Proof.
  rewrite (unresolved_destination_is_fatal
             {| Synth.now := "2025-01-01T00:00:00";
                Synth.gtts := fun _ _ => Some Sample.three_bytes;
                Synth.pyttsx3 := fun _ _ => None;
                Synth.write_output := fun _ _ => Written;
                Synth.default_download_path := None;
                Synth.copy2 := fun _ _ => Written |}
             (Sample.tts_request "Hello world" "male" (Some "hi.mp3"))
             ∅ Sample.three_bytes eq_refl eq_refl eq_refl eq_refl eq_refl).
  apply lookup_insert_eq.
Defined.

Lemma startswith_job_prefix job a b :
  Py.startswith (job +:+ "_" +:+ a) "/" = Py.startswith (job +:+ "_" +:+ b) "/".
Proof. destruct job; reflexivity. Qed.

(** Two names built on one job id that are joined to the same path are the
    same name. *)
Lemma path_join_job_inj job a b :
  Py.path_join TEMP_FILES_DIR (job +:+ "_" +:+ a)
  = Py.path_join TEMP_FILES_DIR (job +:+ "_" +:+ b) ->
  a = b.
Proof.
  unfold Py.path_join. rewrite (startswith_job_prefix job a b).
  destruct (Py.startswith (job +:+ "_" +:+ b) "/"); cbn [orb Py.is_empty];
    intros H.
  - apply (inj (String.app job)) in H. injection H as H. exact H.
  - change (Py.is_empty TEMP_FILES_DIR || Py.endswith TEMP_FILES_DIR "/")
      with false in H.
    apply (inj (String.app TEMP_FILES_DIR)) in H.
    apply (inj (String.app "/")) in H.
    apply (inj (String.app job)) in H. injection H as H. exact H.
Qed.

(** X25.  The transcoder never writes over the file it reads: whenever the
    filename is classified as video, the path of the saved upload and the
    path of the intermediate audio file are different.  The two coincide
    only for the filename "audio.mp3", which is not transcoded. *)
Theorem transcode_never_overwrites_upload job filename :
  let p_in := Py.path_join TEMP_FILES_DIR (job +:+ "_" +:+ filename) in
  let p_out := Py.path_join TEMP_FILES_DIR (job +:+ "_audio.mp3") in
  (p_in = p_out <-> filename = "audio.mp3")
  /\ (Processor.is_video filename = true -> p_in <> p_out).
Proof.
  intros p_in p_out.
  assert (Hiff : p_in = p_out <-> filename = "audio.mp3").
  { split.
    - apply path_join_job_inj.
    - intros ->. reflexivity. }
  split; [exact Hiff|].
  intros Hvideo Heq. apply Hiff in Heq. subst filename.
  discriminate Hvideo.
Qed.

Lemma transcode_never_overwrites_upload_witness :
  Processor.is_video "audio.mp4" = true
  /\ Py.path_join TEMP_FILES_DIR ("j1" +:+ "_" +:+ "audio.mp4")
     <> Py.path_join TEMP_FILES_DIR ("j1" +:+ "_audio.mp3").
Proof.
  split; [reflexivity|].
  exact (proj2 (transcode_never_overwrites_upload "j1" "audio.mp4") eq_refl).
Defined.

(** ** Further properties: the file listing *)

Lemma substring_all s : String.substring 0 (String.length s) s = s.
Proof.
  induction s as [|c s IH]; [reflexivity|].
  cbn [String.length String.substring]. rewrite IH. reflexivity.
Qed.

Lemma drop_app a b : Py.drop (String.length a) (a +:+ b) = b.
Proof.
  unfold Py.drop. rewrite length_append.
  replace (String.length a + String.length b - String.length a)
    with (String.length b) by lia.
  induction a as [|c a IH]; [apply substring_all|].
  cbn [String.length String.append String.substring]. exact IH.
Qed.

Lemma no_slash_not_absolute name :
  Py.contains "/" name = false -> Py.startswith name "/" = false.
Proof.
  destruct name as [|c name]; [reflexivity|].
  cbn [Py.contains Py.startswith]. intros H.
  apply orb_false_iff in H as [-> _]. reflexivity.
Qed.

Lemma path_join_plain name :
  Py.contains "/" name = false ->
  Py.path_join TEMP_FILES_DIR name = TEMP_FILES_DIR +:+ "/" +:+ name.
Proof.
  intros H. unfold Py.path_join.
  rewrite (no_slash_not_absolute _ H). reflexivity.
Qed.

Lemma entry_name_inv path name :
  Synth.entry_name path = Some name ->
  path = TEMP_FILES_DIR +:+ "/" +:+ name
  /\ Py.is_empty name = false /\ Py.contains "/" name = false.
Proof.
  unfold Synth.entry_name.
  destruct (Py.startswith path (TEMP_FILES_DIR +:+ "/")) eqn:Hs;
    [|discriminate].
  apply startswith_inv in Hs as [b ->]. rewrite drop_app.
  destruct (Py.is_empty b) eqn:He; [discriminate|].
  destruct (Py.contains "/" b) eqn:Hc; [discriminate|].
  intros [= <-]. rewrite append_assoc. repeat split; assumption.
Qed.

Lemma entry_name_intro name :
  Py.is_empty name = false -> Py.contains "/" name = false ->
  Synth.entry_name (TEMP_FILES_DIR +:+ "/" +:+ name) = Some name.
Proof.
  intros He Hc. unfold Synth.entry_name.
  rewrite <- append_assoc, startswith_app, drop_app, He, Hc. reflexivity.
Qed.

Lemma elem_of_listdir d name :
  name ∈ Synth.listdir d
  <-> is_Some (d !! (TEMP_FILES_DIR +:+ "/" +:+ name))
      /\ Py.is_empty name = false /\ Py.contains "/" name = false.
Proof.
  unfold Synth.listdir. rewrite list_elem_of_omap. split.
  - intros ([path content] & Hin & Hname). cbn [fst] in Hname.
    apply elem_of_map_to_list in Hin.
    destruct (entry_name_inv _ _ Hname) as (-> & He & Hc).
    split; [eexists; exact Hin | split; assumption].
  - intros ([content Hd] & He & Hc).
    exists (TEMP_FILES_DIR +:+ "/" +:+ name, content). split.
    + apply elem_of_map_to_list. exact Hd.
    + apply entry_name_intro; assumption.
Qed.

Lemma collect_files_spec ctime job d names :
  (forall n, n ∈ names -> is_Some (d !! Py.path_join TEMP_FILES_DIR n)) ->
  exists found,
    Synth.collect_files ctime job d names = inr found
    /\ forall e,
         e ∈ found
         <-> exists n content,
               n ∈ names /\ Py.startswith n job = true
               /\ d !! Py.path_join TEMP_FILES_DIR n = Some content
               /\ e = {| Synth.e_filename := n;
                         Synth.e_size := Py.len content;
                         Synth.e_created :=
                           ctime (Py.path_join TEMP_FILES_DIR n);
                         Synth.e_download_url :=
                           "/download/" +:+ job +:+ "/" +:+ n |}.
Proof.
  induction names as [|n names IH]; intros Hall.
  - exists []. split; [reflexivity|]. intros e. split.
    + intros H. inversion H.
    + intros (m & c & Hm & _). inversion Hm.
  - destruct IH as (found & Hfound & Hspec).
    { intros m Hm. apply Hall. right. exact Hm. }
    cbn [Synth.collect_files]. rewrite Hfound.
    destruct (Py.startswith n job) eqn:Hs.
    + destruct (Hall n) as [content Hc]; [left|]. rewrite Hc.
      eexists. split; [reflexivity|]. intros e.
      rewrite elem_of_cons, Hspec. split.
      * intros [-> | (m & c & Hm & Hrest)].
        -- exists n, content. split; [left|]. repeat split; assumption.
        -- exists m, c. split; [right; exact Hm | exact Hrest].
      * intros (m & c & Hm & Hsm & Hcm & ->).
        apply elem_of_cons in Hm as [-> | Hm].
        -- left. rewrite Hc in Hcm. injection Hcm as <-. reflexivity.
        -- right. exists m, c. repeat split; assumption.
    + exists found. split; [reflexivity|]. intros e. rewrite Hspec. split.
      * intros (m & c & Hm & Hrest). exists m, c.
        split; [right; exact Hm | exact Hrest].
      * intros (m & c & Hm & Hsm & Hrest).
        apply elem_of_cons in Hm as [-> | Hm]; [congruence|].
        exists m, c. repeat split; assumption || apply Hrest.
Qed.

(** What [/files/{job_id}] answers on a temp directory of regular files. *)
Lemma get_file_info_spec ctime job s :
  exists found,
    Synth.get_file_info ctime job s
    = (inr {| Synth.l_job_id := job; Synth.l_files := found |}, s)
    /\ forall e,
         e ∈ found
         <-> exists name content,
               Synth.fs s !! (TEMP_FILES_DIR +:+ "/" +:+ name) = Some content
               /\ Py.is_empty name = false
               /\ Py.contains "/" name = false
               /\ Py.startswith name job = true
               /\ e = {| Synth.e_filename := name;
                         Synth.e_size := Py.len content;
                         Synth.e_created :=
                           ctime (TEMP_FILES_DIR +:+ "/" +:+ name);
                         Synth.e_download_url :=
                           "/download/" +:+ job +:+ "/" +:+ name |}.
Proof.
  destruct (collect_files_spec ctime job (Synth.fs s)
              (Synth.listdir (Synth.fs s))) as (found & Hfound & Hspec).
  { intros n Hn. apply elem_of_listdir in Hn as (Hsome & _ & Hc).
    rewrite (path_join_plain _ Hc). exact Hsome. }
  exists found. split.
  - unfold Synth.get_file_info. run_m. rewrite Hfound. reflexivity.
  - intros e. rewrite Hspec. split.
    + intros (n & content & Hn & Hs & Hd & ->).
      apply elem_of_listdir in Hn as (_ & He & Hc).
      rewrite (path_join_plain _ Hc) in *.
      exists n, content. repeat split; assumption.
    + intros (n & content & Hd & He & Hc & Hs & ->).
      exists n, content. rewrite (path_join_plain _ Hc).
      split; [|repeat split; assumption].
      apply elem_of_listdir. split; [eexists; exact Hd | split; assumption].
Qed.

(** X26.  [/files/{job_id}] always answers, and lists exactly the direct
    entries of the temp directory whose name starts with the job id, each
    with the length of its content and the download link built from the
    job id and the name.  A file stored under a name that does not start
    with the job id is not listed for that job. *)
Theorem file_listing_is_by_name_prefix ctime job s :
  exists found,
    Synth.get_file_info ctime job s
    = (inr {| Synth.l_job_id := job; Synth.l_files := found |}, s)
    /\ forall e,
         e ∈ found
         <-> exists name content,
               Synth.fs s !! (TEMP_FILES_DIR +:+ "/" +:+ name) = Some content
               /\ Py.is_empty name = false
               /\ Py.contains "/" name = false
               /\ Py.startswith name job = true
               /\ e = {| Synth.e_filename := name;
                         Synth.e_size := Py.len content;
                         Synth.e_created :=
                           ctime (TEMP_FILES_DIR +:+ "/" +:+ name);
                         Synth.e_download_url :=
                           "/download/" +:+ job +:+ "/" +:+ name |}.
Proof. apply get_file_info_spec. Qed.

(** X27.  An output written under its default name is found again through
    the listing: after a response to a request that named no file, whose
    job id has no "/" in it and whose audio came from the primary engine,
    [/files/{job_id}] lists the file job id plus ".mp3", with the length
    of the audio and the same download link as the response. *)
Theorem default_named_output_is_listed E request d resp s' audio ctime :
  Synth.generate_speech E request (Synth.start d) = (inr resp, s') ->
  Synth.gtts E (Synth.text request) (Synth.language request) = Some audio ->
  Synth.filename request = None ->
  Py.contains "/" (Synth.job_id request) = false ->
  exists found,
    Synth.get_file_info ctime (Synth.job_id request) s'
    = (inr {| Synth.l_job_id := Synth.job_id request;
              Synth.l_files := found |}, s')
    /\ {| Synth.e_filename := Synth.job_id request +:+ ".mp3";
          Synth.e_size := Py.len audio;
          Synth.e_created :=
            ctime (TEMP_FILES_DIR +:+ "/" +:+ Synth.job_id request +:+ ".mp3");
          Synth.e_download_url := Synth.r_download_url resp |} ∈ found.
Proof.
  intros Hrun Hg Hnone Hjob.
  assert (Hname : Synth.mp3_name request = Synth.job_id request +:+ ".mp3").
  { unfold Synth.mp3_name. rewrite Hnone. cbn [Py.or_else].
    rewrite endswith_app. reflexivity. }
  assert (Hslash : Py.contains "/" (Synth.job_id request +:+ ".mp3") = false).
  { rewrite contains_app, Hjob. reflexivity. }
  destruct (generate_speech_success _ _ _ _ _ Hrun)
    as (_ & audio' & folder & Hengine & _ & Hfs & Hurl).
  cbn zeta in Hengine, Hurl.
  destruct Hengine as [[Hp Hn] | (Hp & _)]; [|congruence].
  rewrite Hg in Hp. injection Hp as <-. rewrite Hname in Hn.
  assert (Hlook : Synth.fs s'
                  !! (TEMP_FILES_DIR +:+ "/" +:+ Synth.job_id request
                      +:+ ".mp3") = Some audio).
  { rewrite Hfs, Hn, (path_join_plain _ Hslash), lookup_insert.
    case_decide; [reflexivity|]. apply lookup_insert_eq. }
  rewrite Hn in Hurl.
  destruct (get_file_info_spec ctime (Synth.job_id request) s')
    as (found & Hinfo & Hspec).
  exists found. split; [exact Hinfo|].
  apply Hspec. exists (Synth.job_id request +:+ ".mp3"), audio.
  split; [exact Hlook|]. split.
  { destruct (Synth.job_id request); reflexivity. }
  split; [exact Hslash|]. split; [apply startswith_app|].
  rewrite Hurl. reflexivity.
Qed.

Lemma default_named_output_is_listed_witness :
  exists found,
    Synth.get_file_info (fun _ => "2025-01-01T00:00:00") Sample.uuid
      (snd (Synth.generate_speech
              (Sample.synth_env (Some Sample.three_bytes) None)
              (Sample.tts_request "Hello world" "male" None)
              (Synth.start ∅)))
    = (inr {| Synth.l_job_id := Sample.uuid; Synth.l_files := found |},
       snd (Synth.generate_speech
              (Sample.synth_env (Some Sample.three_bytes) None)
              (Sample.tts_request "Hello world" "male" None)
              (Synth.start ∅)))
    /\ exists e,
         e ∈ found
         /\ Synth.e_filename e = Sample.uuid +:+ ".mp3"
         /\ Synth.e_size e = 3%Z.
Proof.
  destruct (Synth.generate_speech
              (Sample.synth_env (Some Sample.three_bytes) None)
              (Sample.tts_request "Hello world" "male" None)
              (Synth.start ∅)) as [[e|resp] s'] eqn:Hrun;
    [vm_compute in Hrun; discriminate Hrun|].
  destruct (default_named_output_is_listed _ _ _ _ _ Sample.three_bytes
              (fun _ => "2025-01-01T00:00:00") Hrun eq_refl eq_refl eq_refl)
    as (found & Hinfo & Hin).
  exists found. split; [exact Hinfo|].
  eexists. split; [exact Hin|]. split; reflexivity.
Defined.
